(** * Auto-scroll marshal of react-beautiful-dnd

    A shallow embedding of [src/state/auto-scroll-marshal/auto-scroll-marshal.js]
    and the properties of its speed function, its required-scroll solver,
    and its fluid / jump scroll paths.

    Number model.  Every JavaScript [number] of the source is embedded as an
    exact rational ([Q]): [+], [-], [*], [/] and [Math.pow] are the field
    operations, the comparisons [<], [<=], [>], [>=] are the order of [Q],
    and [===] on numbers is [Qeq_bool].  Rounding, infinities and NaN of the
    IEEE doubles are outside this model; the statements proved in it are
    those that rounding does not disturb.  Where rounding decides a
    property, module [Double] embeds the speed function a second time, over
    binary64 numbers. *)

From Stdlib Require Import QArith Qpower Qminmax Lqa Lia Bool List.
From Stdlib Require Import String Floats.
From stdpp Require Import base option gmap strings.
Import ListNotations.

Local Open Scope Q_scope.

(** ** Numbers *)

(** The comparison operators of the source, as booleans. *)
Definition Qltb (a b : Q) : bool :=
  match a ?= b with Lt => true | _ => false end.
Definition Qgtb (a b : Q) : bool := Qltb b a.
Definition Qgeb (a b : Q) : bool := Qle_bool b a.

(** ** Data model

    The type declarations of [../../types] are not part of the sources at
    hand; each record below keeps the fields the marshal reads. *)

(** Modelled from the spec: "a 2D vector [{x, y}] in page pixel space". *)
Module Position.
Record t : Type := mk { x : Q; y : Q }.
End Position.

(** Modelled from the spec: "[{top, right, bottom, left, width, height}]
    describing a scrollable surface's visible frame in page coordinates". *)
Module Area.
Record t : Type := mk {
  top : Q; right : Q; bottom : Q; left : Q;
  width : Q; height : Q
}.
End Area.

(** Modelled from the spec: the four edge distances [top], [right],
    [bottom], [left] the solver computes. *)
Module Spacing.
Record t : Type := mk { top : Q; right : Q; bottom : Q; left : Q }.
End Spacing.

(** Modelled from the spec: the module [../position] is not part of the
    sources at hand.  Positions are "compared by structural equality". *)
Definition isEqual (a b : Position.t) : bool :=
  Qeq_bool (Position.x a) (Position.x b) && Qeq_bool (Position.y a) (Position.y b).

(** Modelled from the spec: [add] of the module [../position], which is not
    part of the sources at hand.  Positions are "combined by vector
    addition". *)
Definition add (a b : Position.t) : Position.t :=
  Position.mk (Position.x a + Position.x b) (Position.y a + Position.y b).

(** Modelled from the spec: the module [../axis] is not part of the sources
    at hand.  An axis descriptor names the fields of a rectangle that belong
    to a logical axis; the marshal only reads [axis.size], which is [height]
    for the vertical axis and [width] for the horizontal one. *)
Module Axis.
Record t : Type := mk { size : Area.t -> Q }.
End Axis.

Definition vertical : Axis.t := Axis.mk Area.height.
Definition horizontal : Axis.t := Axis.mk Area.width.

(** ** Configuration *)

Module config.
Definition startFrom : Q := 0.25.
Definition maxSpeedAt : Q := 0.05.
Definition maxScrollSpeed : Q := 28.
Definition ease (percentage : Q) : Q := percentage ^ 2.
End config.

Definition origin : Position.t := Position.mk 0 0.

Record PixelThresholds : Type := mkThresholds {
  startFrom : Q;
  maxSpeedAt : Q;
  accelerationPlane : Q
}.

(** ** Threshold calculator, speed function, required-scroll solver *)

Definition getPixelThresholds (container : Area.t) (axis : Axis.t) : PixelThresholds :=
  let startFrom := Axis.size axis container * config.startFrom in
  let maxSpeedAt := Axis.size axis container * config.maxSpeedAt in
  let accelerationPlane := startFrom - maxSpeedAt in
  mkThresholds startFrom maxSpeedAt accelerationPlane.

Definition getSpeed (distance : Q) (thresholds : PixelThresholds) : Q :=
  if Qgeb distance (startFrom thresholds) then 0
  else if Qle_bool distance (maxSpeedAt thresholds) then config.maxScrollSpeed
  else
    let distancePastStart := startFrom thresholds - distance in
    let percentage := distancePastStart / accelerationPlane thresholds in
    let transformed := config.ease percentage in
    config.maxScrollSpeed * transformed.

Definition edgeDistances (container : Area.t) (center : Position.t) : Spacing.t :=
  Spacing.mk
    (Position.y center - Area.top container)
    (Area.right container - Position.x center)
    (Area.bottom container - Position.y center)
    (Position.x center - Area.left container).

Definition requiredY (container : Area.t) (distance : Spacing.t) : Q :=
  let thresholds := getPixelThresholds container vertical in
  let isCloserToBottom := Qltb (Spacing.bottom distance) (Spacing.top distance) in
  if isCloserToBottom then getSpeed (Spacing.bottom distance) thresholds
  else -1 * getSpeed (Spacing.top distance) thresholds.

Definition requiredX (container : Area.t) (distance : Spacing.t) : Q :=
  let thresholds := getPixelThresholds container horizontal in
  let isCloserToRight := Qltb (Spacing.right distance) (Spacing.left distance) in
  if isCloserToRight then getSpeed (Spacing.right distance) thresholds
  else -1 * getSpeed (Spacing.left distance) thresholds.

Definition getRequiredScroll (container : Area.t) (center : Position.t)
  : option Position.t :=
  let distance := edgeDistances container center in
  let y := requiredY container distance in
  let x := requiredX container distance in
  let required := Position.mk x y in
  if isEqual required origin then None else Some required.

Definition isTooBigForAutoScrolling (frame subject : Area.t) : bool :=
  Qgtb (Area.width subject) (Area.width frame)
  || Qgtb (Area.height subject) (Area.height frame).

(** ** The speed function over doubles

    The same two functions with the arithmetic of the source: binary64
    numbers, every operation rounded to nearest.  [getPixelThresholds] takes
    the size [container[axis.size]]; [Math.pow (percentage, 2)] is the
    rounded square. *)
Module Double.

Record PixelThresholds : Type := mk {
  startFrom : float;
  maxSpeedAt : float;
  accelerationPlane : float
}.

Module config.
Definition startFrom : float := 0.25.
#[warnings="-inexact-float"]
Definition maxSpeedAt : float := 0.05.
Definition maxScrollSpeed : float := 28.
Definition ease (percentage : float) : float := (percentage * percentage)%float.
End config.

Definition getPixelThresholds (size : float) : PixelThresholds :=
  let startFrom := (size * config.startFrom)%float in
  let maxSpeedAt := (size * config.maxSpeedAt)%float in
  let accelerationPlane := (startFrom - maxSpeedAt)%float in
  mk startFrom maxSpeedAt accelerationPlane.

Definition getSpeed (distance : float) (thresholds : PixelThresholds) : float :=
  if (startFrom thresholds <=? distance)%float then 0%float
  else if (distance <=? maxSpeedAt thresholds)%float then config.maxScrollSpeed
  else
    let distancePastStart := (startFrom thresholds - distance)%float in
    let percentage := (distancePastStart / accelerationPlane thresholds)%float in
    let transformed := config.ease percentage in
    (config.maxScrollSpeed * transformed)%float.

End Double.

(** ** Drag state *)

Definition DraggableId : Type := string.
Definition DroppableId : Type := string.

(** Modelled from the spec: "drag mode ([FLUID] or [JUMP])". *)
Inductive AutoScrollMode : Type := FLUID | JUMP.

(** Modelled from the spec: "the dragged item's page-space bounding box
    including margin ([withMargin])", read as [draggable.page.withMargin]. *)
Record DraggableDimension : Type := mkDraggable {
  page_withMargin : Area.t
}.

(** Modelled from the spec: the "closest scrollable ancestor" of a
    droppable, of which the marshal reads the [frame]. *)
Record ClosestScrollable : Type := mkClosestScrollable {
  frame : Area.t
}.

(** Modelled from the spec: "a scrollable container's descriptor id ... and
    an optional closest scrollable ancestor", read as
    [droppable.descriptor.id] and [droppable.viewport.closestScrollable]. *)
Record DroppableDimension : Type := mkDroppable {
  descriptor_id : DroppableId;
  viewport_closestScrollable : option ClosestScrollable
}.

(** Modelled from the spec: the "destination describing which droppable
    container currently holds the item". *)
Record DraggableLocation : Type := mkLocation {
  droppableId : DroppableId;
  index : nat
}.

(** Modelled from the spec: the drag payload, with the fields the marshal
    reads: [drag.initial.descriptor.id], [drag.initial.autoScrollMode],
    [drag.current.client.selection], [drag.current.page.center],
    [drag.impact.destination] and [drag.scrollJumpRequest]. *)
Record DragState : Type := mkDrag {
  initial_descriptor_id : DraggableId;
  initial_autoScrollMode : AutoScrollMode;
  current_client_selection : Position.t;
  current_page_center : Position.t;
  impact_destination : option DraggableLocation;
  scrollJumpRequest : option Position.t
}.

(** Modelled from the spec: the state snapshot, with the fields the marshal
    reads: [state.phase], [state.drag], [state.dimension.draggable] and
    [state.dimension.droppable]; the two registries are objects keyed by
    id, and a phase is the string the source compares it with. *)
Record State : Type := mkState {
  phase : string;
  drag : option DragState;
  dimension_draggable : gmap string DraggableDimension;
  dimension_droppable : gmap string DroppableDimension
}.

(** ** Collaborators

    The geometry providers and capability oracles imported by the marshal
    from modules that are not part of the sources at hand; they are taken as
    parameters.  They read the page; no call of the marshal consults one of
    them after it has performed a scroll or a move, so one invocation sees
    one snapshot. *)
Record Collaborators : Type := mkCollaborators {
  getViewport : Area.t;
  getWindowScrollPosition : Position.t;
  canScrollWindow : Position.t -> bool;
  canScrollDroppable : DroppableDimension -> Position.t -> bool;
  getWindowOverlap : Position.t -> option Position.t;
  getDroppableOverlap : DroppableDimension -> Position.t -> option Position.t;
  getScrollableDroppableOver :
    Position.t -> gmap string DroppableDimension -> option DroppableDimension
}.

(** ** Effects

    What one invocation does to the outside world, in order.  [Solve] is a
    ghost event: it records an invocation of [getRequiredScroll]. *)
Inductive Event : Type :=
| ConsoleError (message : string)
| ConsoleWarn (message : string) (detail : option Position.t)
| ScheduleWindowScroll (change : Position.t)
| ScheduleDroppableScroll (id : DroppableId) (change : Position.t)
| CancelWindowScroll
| CancelDroppableScroll
| ScrollWindow (change : Position.t)
| ScrollDroppable (id : DroppableId) (change : Position.t)
| Move (id : DraggableId) (client windowScroll : Position.t) (shouldAnimate : bool)
| Solve (container : Area.t) (center : Position.t).

(** A computation emits events and either completes with a value or is cut
    short by a [TypeError] (a property read on [undefined]). *)
Definition M (A : Type) : Type := (list Event * option A)%type.

Definition ret {A} (a : A) : M A := ([], Some a).
Definition throwTypeError {A} : M A := ([], None).
Definition emit (e : Event) : M unit := ([e], Some tt).
Definition bind {A B} (m : M A) (k : A -> M B) : M B :=
  match m with
  | (es, Some a) => let '(es', r) := k a in (es ++ es', r)
  | (es, None) => (es, None)
  end.

Declare Scope js_scope.
Notation "'do' x <- m ; k" := (bind m (fun x => k))
  (at level 10, x name, m at level 100, k at level 200) : js_scope.
Local Open Scope js_scope.

Definition events {A} (m : M A) : list Event := fst m.

(** [o.field] where [o] may be [undefined]. *)
Definition read {A B} (o : option A) (field : A -> B) : M B :=
  match o with
  | Some a => ret (field a)
  | None => throwTypeError
  end.

Definition solve (container : Area.t) (center : Position.t) : M (option Position.t) :=
  do _ <- emit (Solve container center);
  ret (getRequiredScroll container center).

(** ** The marshal

    [scheduleWindowScroll] and [scheduleDroppableScroll] are the frame
    scheduled versions of the two scroll primitives; calling them, their
    [cancel], the primitives themselves, [move] and the console are the
    events of a path.  An early [return] of the source ends a branch here;
    the code after an [if] block that does not return is a function of its
    own, called by every branch that reaches it. *)

Section Marshal.

Variable env : Collaborators.

(** Second half of [fluidScroll] (source lines 180-203), reached when the
    window is not scrolled. *)
Definition fluidScrollDroppable (state : State) (center : Position.t)
    (withMargin : Area.t) : M unit :=
  match getScrollableDroppableOver env center (dimension_droppable state) with
  | None => ret tt
  | Some droppable =>
    do closestFrame <- read (viewport_closestScrollable droppable) frame;
    if isTooBigForAutoScrolling closestFrame withMargin then ret tt
    else
      do requiredFrameScroll <- solve closestFrame center;
      match requiredFrameScroll with
      | Some required =>
        if canScrollDroppable env droppable required
        then emit (ScheduleDroppableScroll (descriptor_id droppable) required)
        else ret tt
      | None => ret tt
      end
  end.

Definition fluidScroll (state : State) : M unit :=
  match drag state with
  | None => emit (ConsoleError "Invalid drag state")
  | Some drag =>
    let center := current_page_center drag in
    let draggable := dimension_draggable state !! initial_descriptor_id drag in
    let viewport := getViewport env in
    do withMargin <- read draggable page_withMargin;
    if isTooBigForAutoScrolling viewport withMargin then ret tt
    else
      do requiredWindowScroll <- solve viewport center;
      match requiredWindowScroll with
      | Some required =>
        if canScrollWindow env required
        then emit (ScheduleWindowScroll required)
        else fluidScrollDroppable state center withMargin
      | None => fluidScrollDroppable state center withMargin
      end
  end.

Definition performMove (state : State) (offset : Position.t) : M unit :=
  match drag state with
  | None => ret tt
  | Some drag =>
    let client := add (current_client_selection drag) offset in
    emit (Move (initial_descriptor_id drag) client (getWindowScrollPosition env) true)
  end.

(** Last part of [jumpScroll] (source lines 266-287): the window. *)
Definition jumpScrollWindow (state : State) (request : Position.t)
    (withMargin : Area.t) : M unit :=
  if isTooBigForAutoScrolling (getViewport env) withMargin
  then performMove state request
  else if negb (canScrollWindow env request) then
    do _ <- emit (ConsoleWarn
      "Jump scroll requested but it cannot be done by Droppable or the Window" None);
    performMove state request
  else
    do _ <- match getWindowOverlap env request with
            | Some overlap =>
              do _ <- emit (ConsoleWarn "WINDOW OVERLAP" (Some overlap));
              performMove state overlap
            | None => ret tt
            end;
    emit (ScrollWindow request).

Definition jumpScroll (state : State) : M unit :=
  match drag state with
  | None => ret tt
  | Some drag =>
    match scrollJumpRequest drag with
    | None => ret tt
    | Some request =>
      let draggable := dimension_draggable state !! initial_descriptor_id drag in
      match impact_destination drag with
      | None =>
        emit (ConsoleError "Cannot perform a jump scroll when there is no destination")
      | Some destination =>
        match dimension_droppable state !! droppableId destination with
        | None => throwTypeError
        | Some droppable =>
          match viewport_closestScrollable droppable with
          | Some closestScrollable =>
            do withMargin <- read draggable page_withMargin;
            if isTooBigForAutoScrolling (frame closestScrollable) withMargin
            then performMove state request
            else if canScrollDroppable env droppable request then
              do _ <- (if negb (canScrollWindow env request) then
                         match getDroppableOverlap env droppable request with
                         | Some overlap =>
                           do _ <- emit (ConsoleWarn "DROPPABLE OVERLAP" (Some overlap));
                           performMove state overlap
                         | None => ret tt
                         end
                       else ret tt);
              emit (ScrollDroppable (descriptor_id droppable) request)
            else jumpScrollWindow state request withMargin
          | None =>
            do withMargin <- read draggable page_withMargin;
            jumpScrollWindow state request withMargin
          end
        end
      end
    end
  end.

(** Source lines 312-316. *)
Definition cancelIfNoLongerDragging (previous current : State) : M unit :=
  if String.eqb (phase previous) "DRAGGING" && negb (String.eqb (phase current) "DRAGGING")
  then
    do _ <- emit CancelWindowScroll;
    emit CancelDroppableScroll
  else ret tt.

Definition onStateChange (previous current : State) : M unit :=
  if String.eqb (phase current) "DRAGGING" then
    match drag current with
    | None => emit (ConsoleError "invalid drag state")
    | Some drag =>
      match initial_autoScrollMode drag with
      | FLUID => fluidScroll current
      | JUMP =>
        match scrollJumpRequest drag with
        | None => ret tt
        | Some _ =>
          do _ <- jumpScroll current;
          cancelIfNoLongerDragging previous current
        end
      end
    end
  else cancelIfNoLongerDragging previous current.

End Marshal.

(** ** The frame scheduler *)

(** Modelled from the spec: [rafSchd] is a third-party package, "a
    single-slot latest pending call per target, flushed on the next tick";
    calls within a frame coalesce to the latest argument and [cancel] drops
    the pending call. *)
Record Scheduler : Type := mkScheduler {
  pendingWindowScroll : option Position.t;
  pendingDroppableScroll : option (DroppableId * Position.t)
}.

Definition idle : Scheduler := mkScheduler None None.

Definition schedule (s : Scheduler) (e : Event) : Scheduler :=
  match e with
  | ScheduleWindowScroll change =>
    mkScheduler (Some change) (pendingDroppableScroll s)
  | ScheduleDroppableScroll id change =>
    mkScheduler (pendingWindowScroll s) (Some (id, change))
  | CancelWindowScroll => mkScheduler None (pendingDroppableScroll s)
  | CancelDroppableScroll => mkScheduler (pendingWindowScroll s) None
  | _ => s
  end.

Definition scheduleAll (s : Scheduler) (es : list Event) : Scheduler :=
  fold_left schedule es s.

(** An animation frame runs whatever is pending and empties both slots.
    The window is listed first; the order between the two targets plays no
    part below. *)
Definition animationFrame (s : Scheduler) : list Event * Scheduler :=
  (match pendingWindowScroll s with
   | Some change => [ScrollWindow change]
   | None => []
   end ++
   match pendingDroppableScroll s with
   | Some (id, change) => [ScrollDroppable id change]
   | None => []
   end,
   idle).

(** The scroll primitives run by a number of successive animation frames. *)
Fixpoint animationFrames (frames : nat) (s : Scheduler) : list Event :=
  match frames with
  | O => []
  | S frames' =>
    let (es, s') := animationFrame s in es ++ animationFrames frames' s'
  end.

(** One notification of the marshal: the events of [onStateChange] and the
    scheduler they leave behind. *)
Definition notify (env : Collaborators) (s : Scheduler) (previous current : State)
  : list Event * Scheduler :=
  let es := events (onStateChange env previous current) in
  (es, scheduleAll s es).

(** ** Classifying events *)

Definition isScheduling (e : Event) : bool :=
  match e with
  | ScheduleWindowScroll _ | ScheduleDroppableScroll _ _ => true
  | _ => false
  end.

Definition isSolve (e : Event) : bool :=
  match e with
  | Solve _ _ => true
  | _ => false
  end.

Definition isWindowScheduling (e : Event) : bool :=
  match e with
  | ScheduleWindowScroll _ => true
  | _ => false
  end.

Definition isDroppableScheduling (e : Event) : bool :=
  match e with
  | ScheduleDroppableScroll _ _ => true
  | _ => false
  end.

Definition isDroppableScroll (e : Event) : bool :=
  match e with
  | ScheduleDroppableScroll _ _ | ScrollDroppable _ _ => true
  | _ => false
  end.

Definition isWindowScroll (e : Event) : bool :=
  match e with
  | ScheduleWindowScroll _ | ScrollWindow _ => true
  | _ => false
  end.

(** The nearer of the two edge distances of an axis, as the solver picks it:
    the far edge (bottom, right) only when strictly nearer. *)
Definition nearerDistance (far near : Q) : Q :=
  if Qltb far near then far else near.

(** ** Vocabulary of the further properties *)

Definition isScrollPrimitive (e : Event) : bool :=
  match e with
  | ScrollWindow _ | ScrollDroppable _ _ => true
  | _ => false
  end.

Definition isMove (e : Event) : bool :=
  match e with
  | Move _ _ _ _ => true
  | _ => false
  end.

Definition isCancel (e : Event) : bool :=
  match e with
  | CancelWindowScroll | CancelDroppableScroll => true
  | _ => false
  end.

(** How often an event of a kind occurs in a trace. *)
Definition occurrences (kind : Event -> bool) (es : list Event) : nat :=
  length (List.filter kind es).

(** The delta of a scroll event, scheduled or performed at once. *)
Definition scrollDelta (e : Event) : option Position.t :=
  match e with
  | ScheduleWindowScroll change | ScheduleDroppableScroll _ change
  | ScrollWindow change | ScrollDroppable _ change => Some change
  | _ => None
  end.

(** Two results of the solver that agree as numbers. *)
Definition sameScroll (a b : option Position.t) : Prop :=
  match a, b with
  | Some p, Some q =>
    Position.x p == Position.x q /\ Position.y p == Position.y q
  | None, None => True
  | _, _ => False
  end.

(** A rectangle moved by a vector, its size unchanged. *)
Definition translate (a : Area.t) (v : Position.t) : Area.t :=
  Area.mk (Area.top a + Position.y v) (Area.right a + Position.x v)
          (Area.bottom a + Position.y v) (Area.left a + Position.x v)
          (Area.width a) (Area.height a).

(** A point reflected across the horizontal middle line of a rectangle. *)
Definition mirrorVertically (a : Area.t) (p : Position.t) : Position.t :=
  Position.mk (Position.x p) (Area.top a + Area.bottom a - Position.y p).

Definition negateY (p : Position.t) : Position.t :=
  Position.mk (Position.x p) (- Position.y p).

(** Whether the jump path gets as far as the window for a destination
    droppable: it has no closest scrollable, or one that is large enough for
    the dragged item but cannot take the request. *)
Definition reachesWindow (env : Collaborators) (droppable : DroppableDimension)
    (withMargin : Area.t) (request : Position.t) : bool :=
  match viewport_closestScrollable droppable with
  | Some closestScrollable =>
    negb (isTooBigForAutoScrolling (frame closestScrollable) withMargin)
    && negb (canScrollDroppable env droppable request)
  | None => true
  end.

(** ** Sample inputs

    A 1000 x 800 viewport, a 100 x 50 item dragged over a scrollable list in
    jump mode, and collaborators for a page whose window cannot scroll. *)

Definition sampleViewport : Area.t := Area.mk 0 1000 800 0 1000 800.

Definition sampleList : DroppableDimension :=
  mkDroppable "list" (Some (mkClosestScrollable (Area.mk 100 400 500 100 300 400))).

Definition sampleDrag (mode : AutoScrollMode) (center : Position.t)
    (destination : option DraggableLocation) (request : option Position.t)
  : DragState :=
  mkDrag "item" mode (Position.mk 150 120) center destination request.

Definition sampleState (phase : string) (dragging : option DragState)
    (item : Area.t) : State :=
  mkState phase dragging {[ "item" := mkDraggable item ]} {[ "list" := sampleList ]}.

Definition sampleItem : Area.t := Area.mk 100 250 150 150 100 50.

Definition stuckWindow (overlap : option Position.t) : Collaborators :=
  mkCollaborators sampleViewport (Position.mk 0 0)
    (fun _ => false) (fun _ _ => true)
    (fun _ => None) (fun _ _ => overlap)
    (fun _ droppables => droppables !! "list").

Definition freeWindow : Collaborators :=
  mkCollaborators sampleViewport (Position.mk 0 0)
    (fun _ => true) (fun _ _ => true)
    (fun _ => None) (fun _ _ => None)
    (fun _ droppables => droppables !! "list").

Definition fluidAt (center : Position.t) (item : Area.t) : State :=
  sampleState "DRAGGING" (Some (sampleDrag FLUID center None None)) item.

Definition jumpBy (request : Position.t) (item : Area.t) : State :=
  sampleState "DRAGGING"
    (Some (sampleDrag JUMP (Position.mk 200 125) (Some (mkLocation "list" 2))
                      (Some request)))
    item.

(** A page whose window and list answer the capability oracles as given. *)
Definition samplePage (windowScrolls listScrolls : bool)
    (windowOverlap listOverlap : option Position.t) : Collaborators :=
  mkCollaborators sampleViewport (Position.mk 0 0)
    (fun _ => windowScrolls) (fun _ _ => listScrolls)
    (fun _ => windowOverlap) (fun _ _ => listOverlap)
    (fun _ droppables => droppables !! "list").

(** A jump towards a droppable that is not in the registry. *)
Definition jumpAstray : State :=
  sampleState "DRAGGING"
    (Some (sampleDrag JUMP (Position.mk 200 125) (Some (mkLocation "elsewhere" 0))
                      (Some (Position.mk 0 60))))
    sampleItem.

(** * Properties *)

(** The example of the spec: a 1000 x 800 viewport, centre 10px above the
    bottom edge. *)
Example getRequiredScroll_example :
  getRequiredScroll (Area.mk 0 1000 800 0 1000 800) (Position.mk 500 790)
  = Some (Position.mk (-1 * 0) 28).
Proof. vm_compute. reflexivity. Qed.

(** ** Comparisons *)

Lemma Qltb_lt (a b : Q) : Qltb a b = true <-> a < b.
Proof.
  unfold Qltb. rewrite Qlt_alt.
  destruct (a ?= b); split; congruence.
Qed.

Lemma Qltb_ge (a b : Q) : Qltb a b = false <-> b <= a.
Proof.
  rewrite <- not_true_iff_false, Qltb_lt. split.
  - apply Qnot_lt_le.
  - apply Qle_not_lt.
Qed.

Lemma Qgeb_ge (a b : Q) : Qgeb a b = true <-> b <= a.
Proof. apply Qle_bool_iff. Qed.

Lemma Qgeb_lt (a b : Q) : Qgeb a b = false <-> a < b.
Proof.
  unfold Qgeb. rewrite <- not_true_iff_false, Qle_bool_iff. split.
  - apply Qnot_le_lt.
  - apply Qlt_not_le.
Qed.

Lemma Qle_bool_gt (a b : Q) : Qle_bool a b = false <-> b < a.
Proof. apply (Qgeb_lt b a). Qed.

(** ** The speed function, branch by branch *)

Section Speed.

Variable thresholds : PixelThresholds.

Lemma getSpeed_far (d : Q) :
  startFrom thresholds <= d -> getSpeed d thresholds = 0.
Proof.
  intros H. unfold getSpeed. apply Qgeb_ge in H. now rewrite H.
Qed.

Lemma getSpeed_near (d : Q) :
  d < startFrom thresholds -> d <= maxSpeedAt thresholds ->
  getSpeed d thresholds = config.maxScrollSpeed.
Proof.
  intros Hs Hm. unfold getSpeed.
  apply Qgeb_lt in Hs. apply Qle_bool_iff in Hm. now rewrite Hs, Hm.
Qed.

Lemma getSpeed_ramp (d : Q) :
  d < startFrom thresholds -> maxSpeedAt thresholds < d ->
  getSpeed d thresholds =
  config.maxScrollSpeed *
  config.ease ((startFrom thresholds - d) / accelerationPlane thresholds).
Proof.
  intros Hs Hm. unfold getSpeed.
  apply Qgeb_lt in Hs. apply Qle_bool_gt in Hm. now rewrite Hs, Hm.
Qed.

Lemma ease_square (p : Q) : config.ease p == p * p.
Proof. unfold config.ease. simpl. ring. Qed.

Lemma getSpeed_nonneg (d : Q) : 0 <= getSpeed d thresholds.
Proof.
  destruct (Qlt_le_dec d (startFrom thresholds)) as [Hs | Hs].
  - destruct (Qlt_le_dec (maxSpeedAt thresholds) d) as [Hm | Hm].
    + rewrite getSpeed_ramp by assumption.
      rewrite ease_square. unfold config.maxScrollSpeed.
      set (p := _ / _). nra.
    + rewrite getSpeed_near by assumption. unfold config.maxScrollSpeed. lra.
  - rewrite getSpeed_far by assumption. lra.
Qed.

(** On the ramp the interpolated percentage lies in (0, 1] as soon as the
    acceleration plane covers the distance between the two thresholds. *)
Lemma percentage_range (d : Q) :
  0 < accelerationPlane thresholds ->
  startFrom thresholds - maxSpeedAt thresholds <= accelerationPlane thresholds ->
  d < startFrom thresholds -> maxSpeedAt thresholds < d ->
  0 < (startFrom thresholds - d) / accelerationPlane thresholds < 1.
Proof.
  intros Ha Hcover Hs Hm.
  set (a := accelerationPlane thresholds) in *.
  assert (Hp : (startFrom thresholds - d) / a * a == startFrom thresholds - d)
    by (field; lra).
  set (p := (startFrom thresholds - d) / a) in *.
  split; nra.
Qed.

Lemma getSpeed_le_max (d : Q) :
  0 < accelerationPlane thresholds ->
  startFrom thresholds - maxSpeedAt thresholds <= accelerationPlane thresholds ->
  getSpeed d thresholds <= config.maxScrollSpeed.
Proof.
  intros Ha Hcover.
  destruct (Qlt_le_dec d (startFrom thresholds)) as [Hs | Hs].
  - destruct (Qlt_le_dec (maxSpeedAt thresholds) d) as [Hm | Hm].
    + rewrite getSpeed_ramp by assumption.
      pose proof (percentage_range d Ha Hcover Hs Hm) as [Hp0 Hp1].
      rewrite ease_square. unfold config.maxScrollSpeed.
      set (p := _ / _) in *. nra.
    + rewrite getSpeed_near by assumption. lra.
  - rewrite getSpeed_far by assumption. unfold config.maxScrollSpeed. lra.
Qed.

End Speed.

Lemma getSpeed_compat (thresholds : PixelThresholds) (d d' : Q) :
  d == d' -> getSpeed d thresholds == getSpeed d' thresholds.
Proof.
  intros Hd.
  destruct (Qlt_le_dec d (startFrom thresholds)) as [Hs | Hs].
  - destruct (Qlt_le_dec (maxSpeedAt thresholds) d) as [Hm | Hm].
    + rewrite (getSpeed_ramp thresholds d), (getSpeed_ramp thresholds d') by lra.
      unfold config.ease. now rewrite Hd.
    + rewrite (getSpeed_near thresholds d), (getSpeed_near thresholds d') by lra.
      reflexivity.
  - rewrite (getSpeed_far thresholds d), (getSpeed_far thresholds d') by lra.
    reflexivity.
Qed.

(** ** Claims about the speed function *)

(** C2, as stated, fails in the arithmetic of the source: for a container of
    size 800 the thresholds are 200, 40 and 160, and at the first double
    above 40 the subtraction [200 - d] rounds to 160, the percentage is 1 and
    the speed is the full 28 although [d] lies strictly between [maxSpeedAt]
    and [startFrom]. *)
Lemma getSpeed_by_zone_counterexample :
  let thresholds := Double.getPixelThresholds 800 in
  let d := 0x1.4000000000001p+5%float in
  thresholds = Double.mk 200 40 160 /\
  (Double.maxSpeedAt thresholds <? d)%float = true /\
  (d <? Double.startFrom thresholds)%float = true /\
  Double.getSpeed d thresholds = 28%float /\
  (Double.getSpeed d thresholds <? 28)%float = false.
Proof. cbv zeta. repeat split; vm_compute; reflexivity. Qed.

(** C2, amended: with the thresholds of a container of positive size, the
    speed is 0 from [startFrom] outwards, the maximum 28 up to [maxSpeedAt],
    and on the ramp strictly in between it is [28 * ease ((startFrom - d) /
    accelerationPlane)], above 0 and at most 28. *)
Theorem getSpeed_by_zone (container : Area.t) (axis : Axis.t) (d : Q) :
  0 < Axis.size axis container ->
  let thresholds := getPixelThresholds container axis in
  (startFrom thresholds <= d -> getSpeed d thresholds = 0) /\
  (d <= maxSpeedAt thresholds -> getSpeed d thresholds = 28) /\
  (maxSpeedAt thresholds < d /\ d < startFrom thresholds ->
   getSpeed d thresholds =
     28 * config.ease ((startFrom thresholds - d) / accelerationPlane thresholds) /\
   0 < getSpeed d thresholds /\ getSpeed d thresholds <= 28).
Proof.
  intros Hsize thresholds.
  assert (Hacc : 0 < accelerationPlane thresholds).
  { subst thresholds. unfold getPixelThresholds, config.startFrom, config.maxSpeedAt.
    simpl. lra. }
  assert (Hcover : startFrom thresholds - maxSpeedAt thresholds
                   <= accelerationPlane thresholds).
  { subst thresholds. unfold getPixelThresholds. simpl. lra. }
  assert (Hgap : maxSpeedAt thresholds < startFrom thresholds).
  { subst thresholds. unfold getPixelThresholds, config.startFrom, config.maxSpeedAt.
    simpl. lra. }
  split; [| split].
  - apply getSpeed_far.
  - intros Hm. apply getSpeed_near; lra.
  - intros [Hm Hs]. split; [now apply getSpeed_ramp |].
    rewrite (getSpeed_ramp thresholds d Hs Hm).
    destruct (percentage_range thresholds d Hacc Hcover Hs Hm) as [Hp0 Hp1].
    rewrite ease_square. unfold config.maxScrollSpeed.
    set (p := _ / _) in *. split; nra.
Qed.

Lemma getSpeed_by_zone_witness :
  let thresholds :=
    getPixelThresholds (Area.mk 0 1000 800 0 1000 800) vertical in
  getSpeed 300 thresholds = 0 /\
  getSpeed 10 thresholds = 28 /\
  getSpeed 100 thresholds =
    28 * config.ease ((startFrom thresholds - 100) / accelerationPlane thresholds) /\
  0 < getSpeed 100 thresholds /\ getSpeed 100 thresholds <= 28.
Proof.
  assert (Hsize : 0 < Axis.size vertical (Area.mk 0 1000 800 0 1000 800))
    by reflexivity.
  split; [| split].
  - apply (getSpeed_by_zone _ vertical 300 Hsize). vm_compute. discriminate.
  - apply (getSpeed_by_zone _ vertical 10 Hsize). vm_compute. discriminate.
  - apply (getSpeed_by_zone _ vertical 100 Hsize). split; reflexivity.
Defined.

(** C3: with the thresholds [getSpeed] is given -- those of a container,
    their acceleration plane positive -- and the quadratic ease, the speed is
    monotonically non-increasing in the distance. *)
Theorem getSpeed_monotone (container : Area.t) (axis : Axis.t) (d1 d2 : Q) :
  let thresholds := getPixelThresholds container axis in
  0 < accelerationPlane thresholds ->
  d1 <= d2 ->
  getSpeed d1 thresholds >= getSpeed d2 thresholds.
Proof.
  intros thresholds Ha Hle.
  assert (Hcover : startFrom thresholds - maxSpeedAt thresholds
                   <= accelerationPlane thresholds).
  { subst thresholds. unfold getPixelThresholds. simpl. lra. }
  destruct (Qlt_le_dec d2 (startFrom thresholds)) as [Hs2 | Hs2].
  2:{ rewrite (getSpeed_far thresholds d2) by assumption. apply getSpeed_nonneg. }
  assert (Hs1 : d1 < startFrom thresholds) by lra.
  destruct (Qlt_le_dec (maxSpeedAt thresholds) d1) as [Hm1 | Hm1].
  2:{ rewrite (getSpeed_near thresholds d1) by assumption. now apply getSpeed_le_max. }
  assert (Hm2 : maxSpeedAt thresholds < d2) by lra.
  rewrite !getSpeed_ramp by assumption.
  pose proof (percentage_range thresholds d1 Ha Hcover Hs1 Hm1) as [Hp1 _].
  pose proof (percentage_range thresholds d2 Ha Hcover Hs2 Hm2) as [Hp2 _].
  set (a := accelerationPlane thresholds) in *.
  assert (E1 : (startFrom thresholds - d1) / a * a == startFrom thresholds - d1)
    by (field; lra).
  assert (E2 : (startFrom thresholds - d2) / a * a == startFrom thresholds - d2)
    by (field; lra).
  rewrite !ease_square. unfold config.maxScrollSpeed.
  set (p1 := (startFrom thresholds - d1) / a) in *.
  set (p2 := (startFrom thresholds - d2) / a) in *.
  assert (Hp : p2 <= p1) by nra.
  nra.
Qed.

Lemma getSpeed_monotone_witness :
  let thresholds :=
    getPixelThresholds (Area.mk 0 1000 800 0 1000 800) vertical in
  getSpeed 60 thresholds >= getSpeed 120 thresholds /\
  getSpeed 10 thresholds >= getSpeed 60 thresholds /\
  getSpeed 120 thresholds >= getSpeed 300 thresholds.
Proof.
  repeat split.
  - apply (getSpeed_monotone (Area.mk 0 1000 800 0 1000 800) vertical 60 120).
    + reflexivity.
    + vm_compute. discriminate.
  - apply (getSpeed_monotone (Area.mk 0 1000 800 0 1000 800) vertical 10 60).
    + reflexivity.
    + vm_compute. discriminate.
  - apply (getSpeed_monotone (Area.mk 0 1000 800 0 1000 800) vertical 120 300).
    + reflexivity.
    + vm_compute. discriminate.
Defined.

(** ** Claims about the required-scroll solver *)

Lemma Qeq_bool_opp_zero (s : Q) : Qeq_bool (-1 * s) 0 = Qeq_bool s 0.
Proof.
  destruct (Qeq_bool s 0) eqn:E.
  - apply Qeq_bool_iff in E. apply Qeq_bool_iff. lra.
  - apply Qeq_bool_neq in E. destruct (Qeq_bool (-1 * s) 0) eqn:E'; [| reflexivity].
    apply Qeq_bool_iff in E'. exfalso. apply E. lra.
Qed.

Lemma Qeq_bool_zero_respects (a b : Q) : a == b -> Qeq_bool a 0 = Qeq_bool b 0.
Proof.
  intros H. destruct (Qeq_bool b 0) eqn:E.
  - apply Qeq_bool_iff in E. apply Qeq_bool_iff. lra.
  - apply Qeq_bool_neq in E. destruct (Qeq_bool a 0) eqn:E'; [| reflexivity].
    apply Qeq_bool_iff in E'. exfalso. apply E. lra.
Qed.

Lemma requiredY_zero (container : Area.t) (distance : Spacing.t) :
  Qeq_bool (requiredY container distance) 0 =
  Qeq_bool (getSpeed (nearerDistance (Spacing.bottom distance) (Spacing.top distance))
                     (getPixelThresholds container vertical)) 0.
Proof.
  unfold requiredY, nearerDistance.
  destruct (Qltb _ _); [reflexivity | apply Qeq_bool_opp_zero].
Qed.

Lemma requiredX_zero (container : Area.t) (distance : Spacing.t) :
  Qeq_bool (requiredX container distance) 0 =
  Qeq_bool (getSpeed (nearerDistance (Spacing.right distance) (Spacing.left distance))
                     (getPixelThresholds container horizontal)) 0.
Proof.
  unfold requiredX, nearerDistance.
  destruct (Qltb _ _); [reflexivity | apply Qeq_bool_opp_zero].
Qed.

Lemma getRequiredScroll_some (container : Area.t) (center required : Position.t) :
  getRequiredScroll container center = Some required ->
  required = Position.mk (requiredX container (edgeDistances container center))
                         (requiredY container (edgeDistances container center)).
Proof.
  unfold getRequiredScroll. destruct (isEqual _ _); congruence.
Qed.

Lemma getSpeed_nearer (thresholds : PixelThresholds) (far near : Q) :
  getSpeed (Qmin far near) thresholds
  == getSpeed (nearerDistance far near) thresholds.
Proof.
  apply getSpeed_compat. unfold nearerDistance.
  destruct (Qltb far near) eqn:E.
  - apply Qltb_lt in E. apply Q.min_l. lra.
  - apply Qltb_ge in E. now apply Q.min_r.
Qed.

(** C1, as stated, fails: in a 1000 x 800 viewport the centre (10, 500) is
    nearer the bottom edge (300) than the top edge (500), yet too far from
    it for any speed; the solver returns the vector (-28, 0), whose vertical
    component is not positive. *)
Lemma getRequiredScroll_sign_counterexample :
  let container := Area.mk 0 1000 800 0 1000 800 in
  let center := Position.mk 10 500 in
  Area.bottom container - Position.y center
    < Position.y center - Area.top container /\
  exists required : Position.t,
    getRequiredScroll container center = Some required /\
    Position.x required == -28 /\
    Position.y required = 0 /\
    ~ 0 < Position.y required.
Proof.
  cbv zeta. split; [reflexivity |].
  exists (Position.mk (-1 * 28) 0). repeat split.
  vm_compute. discriminate.
Qed.

(** C1, amended: the solver returns none exactly when the speed of both axes
    is zero; otherwise each component of the vector is the speed at the
    distance to the nearer edge of its axis, taken with [+] (so never
    negative) when the bottom / right edge is strictly nearer, and with [-]
    (so never positive) when the top / left edge is nearer or equally near.
    The speed of one axis may be zero while the other scrolls. *)
Theorem getRequiredScroll_sign_and_magnitude (container : Area.t) (center : Position.t) :
  let top := Position.y center - Area.top container in
  let right := Area.right container - Position.x center in
  let bottom := Area.bottom container - Position.y center in
  let left := Position.x center - Area.left container in
  let vertically := getPixelThresholds container vertical in
  let horizontally := getPixelThresholds container horizontal in
  let speedY := getSpeed (Qmin bottom top) vertically in
  let speedX := getSpeed (Qmin right left) horizontally in
  0 <= speedX /\ 0 <= speedY /\
  (getRequiredScroll container center = None <-> speedX == 0 /\ speedY == 0) /\
  (forall required : Position.t,
     getRequiredScroll container center = Some required ->
     (bottom < top ->
        Position.y required = getSpeed bottom vertically /\
        0 <= Position.y required) /\
     (top <= bottom ->
        Position.y required = -1 * getSpeed top vertically /\
        Position.y required <= 0) /\
     (right < left ->
        Position.x required = getSpeed right horizontally /\
        0 <= Position.x required) /\
     (left <= right ->
        Position.x required = -1 * getSpeed left horizontally /\
        Position.x required <= 0)).
Proof.
  intros top right bottom left vertically horizontally speedY speedX.
  pose proof (getSpeed_nonneg vertically) as Hv.
  pose proof (getSpeed_nonneg horizontally) as Hh.
  split; [apply Hh |]. split; [apply Hv |]. split.
  - unfold getRequiredScroll, isEqual. cbn [Position.x Position.y origin].
    rewrite requiredX_zero, requiredY_zero.
    change (Spacing.bottom (edgeDistances container center)) with bottom.
    change (Spacing.top (edgeDistances container center)) with top.
    change (Spacing.right (edgeDistances container center)) with right.
    change (Spacing.left (edgeDistances container center)) with left.
    fold vertically horizontally.
    rewrite <- (Qeq_bool_zero_respects _ _ (getSpeed_nearer horizontally right left)).
    rewrite <- (Qeq_bool_zero_respects _ _ (getSpeed_nearer vertically bottom top)).
    fold speedX speedY. split.
    + destruct (Qeq_bool speedX 0) eqn:Ex; destruct (Qeq_bool speedY 0) eqn:Ey;
        cbn; try discriminate.
      intros _. split; now apply Qeq_bool_iff.
    + intros [Hx Hy]. apply Qeq_bool_iff in Hx, Hy. now rewrite Hx, Hy.
  - intros required Hsome. apply getRequiredScroll_some in Hsome. subst required.
    cbn [Position.x Position.y]. unfold requiredX, requiredY. cbv zeta.
    change (Spacing.bottom (edgeDistances container center)) with bottom.
    change (Spacing.top (edgeDistances container center)) with top.
    change (Spacing.right (edgeDistances container center)) with right.
    change (Spacing.left (edgeDistances container center)) with left.
    fold vertically horizontally.
    split; [| split; [| split]]; intros Hnear.
    + apply Qltb_lt in Hnear. rewrite Hnear. split; [reflexivity | apply Hv].
    + apply Qltb_ge in Hnear. rewrite Hnear. split; [reflexivity |].
      pose proof (Hv top). lra.
    + apply Qltb_lt in Hnear. rewrite Hnear. split; [reflexivity | apply Hh].
    + apply Qltb_ge in Hnear. rewrite Hnear. split; [reflexivity |].
      pose proof (Hh left). lra.
Qed.

Lemma getRequiredScroll_sign_and_magnitude_witness :
  let container := Area.mk 0 1000 800 0 1000 800 in
  let center := Position.mk 500 790 in
  getRequiredScroll container center = Some (Position.mk (-1 * 0) 28) /\
  (Position.y (Position.mk (-1 * 0) 28)
   = getSpeed (800 - 790) (getPixelThresholds container vertical) /\
   0 <= Position.y (Position.mk (-1 * 0) 28)) /\
  (Position.x (Position.mk (-1 * 0) 28)
   = -1 * getSpeed (500 - 0) (getPixelThresholds container horizontal) /\
   Position.x (Position.mk (-1 * 0) 28) <= 0).
Proof.
  intros container center.
  assert (Hsome : getRequiredScroll container center = Some (Position.mk (-1 * 0) 28))
    by (vm_compute; reflexivity).
  split; [exact Hsome |].
  destruct (getRequiredScroll_sign_and_magnitude container center)
    as (_ & _ & _ & Hcomponents).
  destruct (Hcomponents _ Hsome) as (Hy & _ & _ & Hx).
  split.
  - apply Hy. reflexivity.
  - apply Hx. vm_compute. discriminate.
Defined.

(** C10: when the centre is equally far from the bottom and the top edge
    (from the right and the left edge), the solver takes the top (left) edge
    and the component of that axis is never positive. *)
Theorem getRequiredScroll_tie (container : Area.t) (center : Position.t) :
  let distance := edgeDistances container center in
  (Spacing.bottom distance == Spacing.top distance ->
     requiredY container distance
     = -1 * getSpeed (Spacing.top distance) (getPixelThresholds container vertical) /\
     requiredY container distance <= 0 /\
     forall required : Position.t,
       getRequiredScroll container center = Some required ->
       Position.y required <= 0) /\
  (Spacing.right distance == Spacing.left distance ->
     requiredX container distance
     = -1 * getSpeed (Spacing.left distance) (getPixelThresholds container horizontal) /\
     requiredX container distance <= 0 /\
     forall required : Position.t,
       getRequiredScroll container center = Some required ->
       Position.x required <= 0).
Proof.
  intros distance. split; intros Htie.
  - assert (Hy : requiredY container distance
                 = -1 * getSpeed (Spacing.top distance)
                                 (getPixelThresholds container vertical)).
    { unfold requiredY.
      assert (Hge : Qltb (Spacing.bottom distance) (Spacing.top distance) = false)
        by (apply Qltb_ge; lra).
      now rewrite Hge. }
    assert (Hneg : requiredY container distance <= 0).
    { rewrite Hy.
      pose proof (getSpeed_nonneg (getPixelThresholds container vertical)
                                  (Spacing.top distance)).
      lra. }
    repeat split; try assumption.
    intros required Hsome. apply getRequiredScroll_some in Hsome.
    subst required. exact Hneg.
  - assert (Hx : requiredX container distance
                 = -1 * getSpeed (Spacing.left distance)
                                 (getPixelThresholds container horizontal)).
    { unfold requiredX.
      assert (Hge : Qltb (Spacing.right distance) (Spacing.left distance) = false)
        by (apply Qltb_ge; lra).
      now rewrite Hge. }
    assert (Hneg : requiredX container distance <= 0).
    { rewrite Hx.
      pose proof (getSpeed_nonneg (getPixelThresholds container horizontal)
                                  (Spacing.left distance)).
      lra. }
    repeat split; try assumption.
    intros required Hsome. apply getRequiredScroll_some in Hsome.
    subst required. exact Hneg.
Qed.

Lemma getRequiredScroll_tie_witness :
  let container := Area.mk 0 1000 800 0 1000 800 in
  let center := Position.mk 500 790 in
  Spacing.right (edgeDistances container center)
  == Spacing.left (edgeDistances container center) /\
  getRequiredScroll container center = Some (Position.mk (-1 * 0) 28) /\
  Position.x (Position.mk (-1 * 0) 28) <= 0.
Proof.
  intros container center.
  assert (Htie : Spacing.right (edgeDistances container center)
                 == Spacing.left (edgeDistances container center)) by reflexivity.
  assert (Hsome : getRequiredScroll container center = Some (Position.mk (-1 * 0) 28))
    by (vm_compute; reflexivity).
  split; [exact Htie |]. split; [exact Hsome |].
  destruct (getRequiredScroll_tie container center) as [_ Hx].
  destruct (Hx Htie) as (_ & _ & Hall).
  exact (Hall _ Hsome).
Defined.

(** ** Claims about the scroll paths *)

Lemma isTooBigForAutoScrolling_iff (frame subject : Area.t) :
  isTooBigForAutoScrolling frame subject = true <->
  Area.width subject > Area.width frame \/ Area.height subject > Area.height frame.
Proof.
  unfold isTooBigForAutoScrolling, Qgtb.
  rewrite orb_true_iff, !Qltb_lt. reflexivity.
Qed.

(** Unfolds the plumbing of the event monad, not the marshal itself. *)
Ltac step :=
  unfold read, solve, emit, ret, throwTypeError, bind; cbn [fst snd app].

(** Follows every branch of a path: case analysis on each condition and on
    each optional value the path inspects. *)
Ltac branches :=
  repeat (match goal with
          | |- context [match ?scrutinee with _ => _ end] =>
            lazymatch type of scrutinee with
            | bool => destruct scrutinee eqn:?
            | option _ => destruct scrutinee eqn:?
            end
          end; step).

Lemma animationFrames_idle (frames : nat) : animationFrames frames idle = [].
Proof. induction frames as [| frames' IH]; [reflexivity | exact IH]. Qed.

Section Paths.

Variable env : Collaborators.

(** C4: jump mode, the destination has a closest scrollable that is not
    smaller than the dragged item, the droppable can take the request and
    the window cannot.  The only move is [performMove] with the overlap
    reported by [getDroppableOverlap]; with no overlap nothing moves; the
    droppable is scrolled at once, nothing is scheduled. *)
Theorem jumpScroll_droppable_overlap
    (state : State) (dragging : DragState) (request : Position.t)
    (destination : DraggableLocation) (draggable : DraggableDimension)
    (droppable : DroppableDimension) (closestScrollable : ClosestScrollable) :
  drag state = Some dragging ->
  scrollJumpRequest dragging = Some request ->
  impact_destination dragging = Some destination ->
  dimension_draggable state !! initial_descriptor_id dragging = Some draggable ->
  dimension_droppable state !! droppableId destination = Some droppable ->
  viewport_closestScrollable droppable = Some closestScrollable ->
  isTooBigForAutoScrolling (frame closestScrollable) (page_withMargin draggable) = false ->
  canScrollDroppable env droppable request = true ->
  canScrollWindow env request = false ->
  match getDroppableOverlap env droppable request with
  | Some overlap =>
    jumpScroll env state =
      (ConsoleWarn "DROPPABLE OVERLAP" (Some overlap)
         :: events (performMove env state overlap)
         ++ [ScrollDroppable (descriptor_id droppable) request],
       Some tt) /\
    performMove env state overlap =
      ([Move (initial_descriptor_id dragging)
             (add (current_client_selection dragging) overlap)
             (getWindowScrollPosition env) true],
       Some tt)
  | None =>
    jumpScroll env state =
      ([ScrollDroppable (descriptor_id droppable) request], Some tt)
  end.
Proof.
  intros Hdrag Hreq Hdest Hdraggable Hdroppable Hclosest Hfits Hcan Hwindow.
  unfold jumpScroll, performMove.
  rewrite Hdrag, Hreq, Hdest, Hdroppable, Hclosest, Hdraggable.
  step. rewrite Hfits, Hcan, Hwindow. cbn [negb].
  destruct (getDroppableOverlap env droppable request) as [overlap |]; step.
  - split; reflexivity.
  - reflexivity.
Qed.

(** C6: fluid mode with a dragged item wider or taller than the viewport:
    the call returns at once, the solver is not invoked and nothing is
    scheduled -- the call has no event at all. *)
Theorem fluidScroll_item_larger_than_viewport
    (state : State) (dragging : DragState) (draggable : DraggableDimension) :
  drag state = Some dragging ->
  dimension_draggable state !! initial_descriptor_id dragging = Some draggable ->
  Area.width (page_withMargin draggable) > Area.width (getViewport env) \/
  Area.height (page_withMargin draggable) > Area.height (getViewport env) ->
  fluidScroll env state = ([], Some tt) /\
  existsb isSolve (events (fluidScroll env state)) = false /\
  existsb isScheduling (events (fluidScroll env state)) = false /\
  (forall previous : State,
     phase state = "DRAGGING" ->
     initial_autoScrollMode dragging = FLUID ->
     onStateChange env previous state = ([], Some tt)).
Proof.
  intros Hdrag Hdraggable Hbig. apply isTooBigForAutoScrolling_iff in Hbig.
  assert (Hrun : fluidScroll env state = ([], Some tt)).
  { unfold fluidScroll. rewrite Hdrag, Hdraggable. step. now rewrite Hbig. }
  rewrite Hrun. repeat split.
  intros previous Hphase Hmode.
  unfold onStateChange. now rewrite Hphase, Hdrag, Hmode.
Qed.

(** C8: on a transition out of the dragging phase [onStateChange] cancels
    both scheduled scrolls: whatever was pending before, the scheduler is
    left empty and no later animation frame runs a scroll primitive. *)
Theorem onStateChange_cancels_pending
    (previous current : State) (pending : Scheduler) (frames : nat) :
  phase previous = "DRAGGING" ->
  phase current <> "DRAGGING" ->
  onStateChange env previous current
    = ([CancelWindowScroll; CancelDroppableScroll], Some tt) /\
  snd (notify env pending previous current) = idle /\
  animationFrames frames (snd (notify env pending previous current)) = [].
Proof.
  intros Hprev Hcur.
  assert (Hrun : onStateChange env previous current
                 = ([CancelWindowScroll; CancelDroppableScroll], Some tt)).
  { unfold onStateChange, cancelIfNoLongerDragging.
    apply String.eqb_neq in Hcur. rewrite Hcur, Hprev. reflexivity. }
  assert (Hidle : snd (notify env pending previous current) = idle).
  { unfold notify. rewrite Hrun. reflexivity. }
  rewrite Hidle. repeat split; try assumption.
  apply animationFrames_idle.
Qed.

(** C9: a dragging phase without drag payload, and a jump request without
    destination, log one error and do nothing else: no scroll, nothing
    scheduled, no move, and the scheduler is left as it was. *)
Theorem onStateChange_invariant_violation
    (previous current : State) (pending : Scheduler) :
  phase current = "DRAGGING" ->
  (drag current = None ->
   onStateChange env previous current
     = ([ConsoleError "invalid drag state"], Some tt) /\
   snd (notify env pending previous current) = pending) /\
  (forall (dragging : DragState) (request : Position.t),
     drag current = Some dragging ->
     initial_autoScrollMode dragging = JUMP ->
     scrollJumpRequest dragging = Some request ->
     impact_destination dragging = None ->
     jumpScroll env current
       = ([ConsoleError "Cannot perform a jump scroll when there is no destination"],
          Some tt) /\
     onStateChange env previous current
       = ([ConsoleError "Cannot perform a jump scroll when there is no destination"],
          Some tt) /\
     snd (notify env pending previous current) = pending).
Proof.
  intros Hphase. split.
  - intros Hdrag.
    assert (Hrun : onStateChange env previous current
                   = ([ConsoleError "invalid drag state"], Some tt)).
    { unfold onStateChange. rewrite Hphase, Hdrag. reflexivity. }
    split; [exact Hrun |]. unfold notify. rewrite Hrun. reflexivity.
  - intros dragging request Hdrag Hmode Hreq Hdest.
    assert (Hjump : jumpScroll env current
      = ([ConsoleError "Cannot perform a jump scroll when there is no destination"],
         Some tt)).
    { unfold jumpScroll. rewrite Hdrag, Hreq, Hdest. reflexivity. }
    assert (Hrun : onStateChange env previous current
      = ([ConsoleError "Cannot perform a jump scroll when there is no destination"],
         Some tt)).
    { unfold onStateChange, cancelIfNoLongerDragging.
      rewrite Hphase, Hdrag, Hmode, Hreq, Hjump. step.
      rewrite andb_false_r. reflexivity. }
    repeat split; try assumption.
    unfold notify. rewrite Hrun. reflexivity.
Qed.

(** C5: in fluid mode the window comes first.  When the solver asks for a
    window scroll that the window accepts, that scroll is scheduled and
    the droppable scheduler is not called; and whenever a droppable scroll
    is scheduled, the solver was first run against the viewport, the
    window scroll was none or refused, and no window scroll was scheduled. *)
Theorem fluidScroll_window_first (state : State) :
  (forall (dragging : DragState) (draggable : DraggableDimension)
          (required : Position.t),
     drag state = Some dragging ->
     dimension_draggable state !! initial_descriptor_id dragging = Some draggable ->
     isTooBigForAutoScrolling (getViewport env) (page_withMargin draggable) = false ->
     getRequiredScroll (getViewport env) (current_page_center dragging)
       = Some required ->
     canScrollWindow env required = true ->
     fluidScroll env state
       = ([Solve (getViewport env) (current_page_center dragging);
           ScheduleWindowScroll required],
          Some tt) /\
     existsb isDroppableScheduling (events (fluidScroll env state)) = false) /\
  (forall (id : DroppableId) (change : Position.t),
     In (ScheduleDroppableScroll id change) (events (fluidScroll env state)) ->
     exists (dragging : DragState) (closestFrame : Area.t),
       drag state = Some dragging /\
       events (fluidScroll env state)
         = [Solve (getViewport env) (current_page_center dragging);
            Solve closestFrame (current_page_center dragging);
            ScheduleDroppableScroll id change] /\
       match getRequiredScroll (getViewport env) (current_page_center dragging) with
       | Some required => canScrollWindow env required = false
       | None => True
       end /\
       existsb isWindowScheduling (events (fluidScroll env state)) = false).
Proof.
  split.
  - intros dragging draggable required Hdrag Hdraggable Hfits Hrequired Hcan.
    assert (Hrun : fluidScroll env state
                   = ([Solve (getViewport env) (current_page_center dragging);
                       ScheduleWindowScroll required], Some tt)).
    { unfold fluidScroll. rewrite Hdrag, Hdraggable. step.
      rewrite Hfits, Hrequired, Hcan. reflexivity. }
    rewrite Hrun. split; reflexivity.
  - intros id change.
    unfold events, fluidScroll, fluidScrollDroppable. step. branches.
    all: cbn [In]; intros Hin.
    all: repeat (destruct Hin as [Hin | Hin]; try discriminate Hin).
    all: try contradiction.
    all: injection Hin as -> ->.
    all: eexists; eexists; split; [reflexivity |]; split; [reflexivity |].
    all: match goal with
         | H : getRequiredScroll (getViewport env) _ = _ |- _ => rewrite H
         end.
    all: split; [assumption || exact I | reflexivity].
Qed.


(** C7: [isTooBigForAutoScrolling] holds exactly when the subject is wider
    or taller than the frame, and a target whose frame is too small for the
    dragged item is not scrolled: in fluid mode nothing is scheduled for
    it, in jump mode it is not scrolled and the item is moved by the
    requested delta instead. *)
Theorem isTooBigForAutoScrolling_suppresses_scroll :
  (forall frame subject : Area.t,
     isTooBigForAutoScrolling frame subject = true <->
     Area.width subject > Area.width frame \/
     Area.height subject > Area.height frame) /\
  (forall (state : State) (dragging : DragState) (draggable : DraggableDimension),
     drag state = Some dragging ->
     dimension_draggable state !! initial_descriptor_id dragging = Some draggable ->
     isTooBigForAutoScrolling (getViewport env) (page_withMargin draggable) = true ->
     fluidScroll env state = ([], Some tt)) /\
  (forall (state : State) (dragging : DragState) (draggable : DraggableDimension)
          (droppable : DroppableDimension) (closestScrollable : ClosestScrollable),
     drag state = Some dragging ->
     dimension_draggable state !! initial_descriptor_id dragging = Some draggable ->
     getScrollableDroppableOver env (current_page_center dragging)
                                (dimension_droppable state) = Some droppable ->
     viewport_closestScrollable droppable = Some closestScrollable ->
     isTooBigForAutoScrolling (frame closestScrollable) (page_withMargin draggable)
       = true ->
     existsb isDroppableScroll (events (fluidScroll env state)) = false) /\
  (forall (state : State) (dragging : DragState) (request : Position.t)
          (destination : DraggableLocation) (draggable : DraggableDimension)
          (droppable : DroppableDimension),
     drag state = Some dragging ->
     scrollJumpRequest dragging = Some request ->
     impact_destination dragging = Some destination ->
     dimension_draggable state !! initial_descriptor_id dragging = Some draggable ->
     dimension_droppable state !! droppableId destination = Some droppable ->
     let moved :=
       ([Move (initial_descriptor_id dragging)
              (add (current_client_selection dragging) request)
              (getWindowScrollPosition env) true],
        Some tt) in
     let absorbed :=
       match viewport_closestScrollable droppable with
       | Some closestScrollable =>
         negb (isTooBigForAutoScrolling (frame closestScrollable)
                                        (page_withMargin draggable))
         && canScrollDroppable env droppable request
       | None => false
       end in
     (forall closestScrollable : ClosestScrollable,
        viewport_closestScrollable droppable = Some closestScrollable ->
        isTooBigForAutoScrolling (frame closestScrollable) (page_withMargin draggable)
          = true ->
        jumpScroll env state = moved) /\
     (isTooBigForAutoScrolling (getViewport env) (page_withMargin draggable) = true ->
      existsb isWindowScroll (events (jumpScroll env state)) = false /\
      (absorbed = false -> jumpScroll env state = moved))).
Proof.
  split; [exact isTooBigForAutoScrolling_iff |]. split; [| split].
  - intros state dragging draggable Hdrag Hdraggable Hbig.
    unfold fluidScroll. rewrite Hdrag, Hdraggable. step. now rewrite Hbig.
  - intros state dragging draggable droppable closestScrollable
           Hdrag Hdraggable Hover Hclosest Hbig.
    unfold events, fluidScroll, fluidScrollDroppable.
    rewrite Hdrag, Hdraggable, Hover, Hclosest. step. rewrite Hbig.
    branches; reflexivity.
  - intros state dragging request destination draggable droppable
           Hdrag Hreq Hdest Hdraggable Hdroppable moved absorbed.
    subst moved absorbed. split.
    + intros closestScrollable Hclosest Hbig.
      unfold jumpScroll, performMove.
      rewrite Hdrag, Hreq, Hdest, Hdroppable, Hclosest, Hdraggable. step.
      now rewrite Hbig.
    + intros Hbig.
      unfold events, jumpScroll, jumpScrollWindow, performMove.
      rewrite Hdrag, Hreq, Hdest, Hdroppable, Hdraggable.
      destruct (viewport_closestScrollable droppable) as [closestScrollable |];
        step; rewrite ?Hbig.
      * destruct (isTooBigForAutoScrolling (frame closestScrollable) _);
          cbn [negb andb]; step.
        { split; [reflexivity | intros _; reflexivity]. }
        destruct (canScrollDroppable env droppable request); step.
        { split; [branches; reflexivity | discriminate]. }
        split; [reflexivity | intros _; reflexivity].
      * split; [reflexivity | intros _; reflexivity].
Qed.
End Paths.

Lemma jumpScroll_droppable_overlap_witness :
  let state :=
    sampleState "DRAGGING"
      (Some (sampleDrag JUMP (Position.mk 200 125)
                        (Some (mkLocation "list" 2)) (Some (Position.mk 0 60))))
      sampleItem in
  jumpScroll (stuckWindow (Some (Position.mk 0 20))) state =
    ([ConsoleWarn "DROPPABLE OVERLAP" (Some (Position.mk 0 20));
      Move "item" (add (Position.mk 150 120) (Position.mk 0 20)) (Position.mk 0 0) true;
      ScrollDroppable "list" (Position.mk 0 60)],
     Some tt) /\
  jumpScroll (stuckWindow None) state =
    ([ScrollDroppable "list" (Position.mk 0 60)], Some tt).
Proof.
  intros state. split.
  - refine (proj1 (jumpScroll_droppable_overlap (stuckWindow (Some (Position.mk 0 20)))
      state _ (Position.mk 0 60) (mkLocation "list" 2) (mkDraggable sampleItem)
      sampleList _ eq_refl eq_refl eq_refl _ _ eq_refl _ eq_refl eq_refl));
      vm_compute; reflexivity.
  - refine (jumpScroll_droppable_overlap (stuckWindow None)
      state _ (Position.mk 0 60) (mkLocation "list" 2) (mkDraggable sampleItem)
      sampleList _ eq_refl eq_refl eq_refl _ _ eq_refl _ eq_refl eq_refl);
      vm_compute; reflexivity.
Defined.

Lemma fluidScroll_window_first_witness :
  fluidScroll freeWindow (fluidAt (Position.mk 500 790) sampleItem)
    = ([Solve sampleViewport (Position.mk 500 790);
        ScheduleWindowScroll (Position.mk (-1 * 0) 28)],
       Some tt) /\
  events (fluidScroll (stuckWindow None) (fluidAt (Position.mk 250 490) sampleItem))
    = [Solve sampleViewport (Position.mk 250 490);
       Solve (Area.mk 100 400 500 100 300 400) (Position.mk 250 490);
       ScheduleDroppableScroll "list" (Position.mk (-1 * 0) 28)] /\
  existsb isWindowScheduling
    (events (fluidScroll (stuckWindow None) (fluidAt (Position.mk 250 490) sampleItem)))
    = false.
Proof.
  split.
  - destruct (fluidScroll_window_first freeWindow
                (fluidAt (Position.mk 500 790) sampleItem)) as [Hwindow _].
    refine (proj1 (Hwindow _ (mkDraggable sampleItem) (Position.mk (-1 * 0) 28)
                           eq_refl _ _ _ eq_refl));
      vm_compute; reflexivity.
  - destruct (fluidScroll_window_first (stuckWindow None)
                (fluidAt (Position.mk 250 490) sampleItem)) as [_ Hdroppable].
    destruct (Hdroppable "list" (Position.mk (-1 * 0) 28))
      as (dragging & closestFrame & Hdrag & Hevents & _ & Hnone).
    + vm_compute. right. right. left. reflexivity.
    + split; [| exact Hnone]. vm_compute. reflexivity.
Defined.

Lemma fluidScroll_item_larger_than_viewport_witness :
  fluidScroll freeWindow
    (fluidAt (Position.mk 500 790) (Area.mk 100 1350 150 150 1200 50))
  = ([], Some tt).
Proof.
  refine (proj1 (fluidScroll_item_larger_than_viewport freeWindow
    (fluidAt (Position.mk 500 790) (Area.mk 100 1350 150 150 1200 50))
    _ (mkDraggable (Area.mk 100 1350 150 150 1200 50)) eq_refl _ _)).
  - vm_compute. reflexivity.
  - left. reflexivity.
Defined.

Lemma isTooBigForAutoScrolling_suppresses_scroll_witness :
  isTooBigForAutoScrolling sampleViewport (Area.mk 100 1350 150 150 1200 50) = true /\
  fluidScroll freeWindow
    (fluidAt (Position.mk 500 790) (Area.mk 100 1350 150 150 1200 50))
    = ([], Some tt) /\
  existsb isDroppableScroll
    (events (fluidScroll (stuckWindow None)
                         (fluidAt (Position.mk 250 490) (Area.mk 100 500 150 150 350 50))))
    = false /\
  jumpScroll freeWindow (jumpBy (Position.mk 0 60) (Area.mk 100 500 150 150 350 50))
    = ([Move "item" (add (Position.mk 150 120) (Position.mk 0 60)) (Position.mk 0 0) true],
       Some tt) /\
  jumpScroll freeWindow (jumpBy (Position.mk 0 60) (Area.mk 100 1350 150 150 1200 50))
    = ([Move "item" (add (Position.mk 150 120) (Position.mk 0 60)) (Position.mk 0 0) true],
       Some tt).
Proof.
  split; [| split; [| split; [| split]]].
  - apply (proj1 (isTooBigForAutoScrolling_suppresses_scroll freeWindow)).
    left. reflexivity.
  - destruct (isTooBigForAutoScrolling_suppresses_scroll freeWindow)
      as (_ & Hfluid & _).
    refine (Hfluid (fluidAt (Position.mk 500 790) (Area.mk 100 1350 150 150 1200 50))
                   _ (mkDraggable (Area.mk 100 1350 150 150 1200 50)) eq_refl _ _);
      vm_compute; reflexivity.
  - destruct (isTooBigForAutoScrolling_suppresses_scroll (stuckWindow None))
      as (_ & _ & Hfluid & _).
    refine (Hfluid (fluidAt (Position.mk 250 490) (Area.mk 100 500 150 150 350 50))
                   _ (mkDraggable (Area.mk 100 500 150 150 350 50)) sampleList
                   (mkClosestScrollable (Area.mk 100 400 500 100 300 400))
                   eq_refl _ _ eq_refl _);
      vm_compute; reflexivity.
  - destruct (isTooBigForAutoScrolling_suppresses_scroll freeWindow)
      as (_ & _ & _ & Hjump).
    set (state := jumpBy (Position.mk 0 60) (Area.mk 100 500 150 150 350 50)).
    assert (Hitem : dimension_draggable state !! "item"
                    = Some (mkDraggable (Area.mk 100 500 150 150 350 50)))
      by (vm_compute; reflexivity).
    assert (Hlist : dimension_droppable state !! "list" = Some sampleList)
      by (vm_compute; reflexivity).
    destruct (Hjump state _ (Position.mk 0 60) (mkLocation "list" 2) _ _
                    eq_refl eq_refl eq_refl Hitem Hlist)
      as [Hdroppable _].
    refine (Hdroppable (mkClosestScrollable (Area.mk 100 400 500 100 300 400))
                       eq_refl _).
    vm_compute. reflexivity.
  - destruct (isTooBigForAutoScrolling_suppresses_scroll freeWindow)
      as (_ & _ & _ & Hjump).
    set (state := jumpBy (Position.mk 0 60) (Area.mk 100 1350 150 150 1200 50)).
    assert (Hitem : dimension_draggable state !! "item"
                    = Some (mkDraggable (Area.mk 100 1350 150 150 1200 50)))
      by (vm_compute; reflexivity).
    assert (Hlist : dimension_droppable state !! "list" = Some sampleList)
      by (vm_compute; reflexivity).
    destruct (Hjump state _ (Position.mk 0 60) (mkLocation "list" 2) _ _
                    eq_refl eq_refl eq_refl Hitem Hlist)
      as [_ Hwindow].
    destruct Hwindow as [_ Hmoved]; [vm_compute; reflexivity |].
    apply Hmoved. vm_compute. reflexivity.
Defined.

Lemma onStateChange_cancels_pending_witness :
  let dragging := fluidAt (Position.mk 500 790) sampleItem in
  let dropping := sampleState "DROP_ANIMATING" None sampleItem in
  let pending := snd (notify freeWindow idle dragging dragging) in
  pending = mkScheduler (Some (Position.mk (-1 * 0) 28)) None /\
  animationFrames 1 pending = [ScrollWindow (Position.mk (-1 * 0) 28)] /\
  animationFrames 3 (snd (notify freeWindow pending dragging dropping)) = [].
Proof.
  intros dragging dropping pending.
  split; [vm_compute; reflexivity |]. split; [vm_compute; reflexivity |].
  refine (proj2 (proj2 (onStateChange_cancels_pending freeWindow
                          dragging dropping pending 3 eq_refl _))).
  vm_compute. discriminate.
Defined.

Lemma onStateChange_invariant_violation_witness :
  onStateChange freeWindow
    (sampleState "DRAGGING" None sampleItem) (sampleState "DRAGGING" None sampleItem)
    = ([ConsoleError "invalid drag state"], Some tt) /\
  let lost :=
    sampleState "DRAGGING"
      (Some (sampleDrag JUMP (Position.mk 200 125) None (Some (Position.mk 0 60))))
      sampleItem in
  onStateChange freeWindow lost lost
    = ([ConsoleError "Cannot perform a jump scroll when there is no destination"],
       Some tt).
Proof.
  split.
  - destruct (onStateChange_invariant_violation freeWindow
                (sampleState "DRAGGING" None sampleItem)
                (sampleState "DRAGGING" None sampleItem) idle eq_refl)
      as [Hpayload _].
    exact (proj1 (Hpayload eq_refl)).
  - intros lost.
    destruct (onStateChange_invariant_violation freeWindow lost lost idle eq_refl)
      as [_ Hdestination].
    destruct (Hdestination _ (Position.mk 0 60) eq_refl eq_refl eq_refl eq_refl)
      as (_ & Hrun & _).
    exact Hrun.
Defined.

(** * Further properties *)

(** ** The speed function and the solver *)

Lemma Qltb_compat (a a' b b' : Q) :
  a == a' -> b == b' -> Qltb a b = Qltb a' b'.
Proof.
  intros Ha Hb.
  destruct (Qltb a b) eqn:E; destruct (Qltb a' b') eqn:E'; try reflexivity.
  - apply Qltb_lt in E. apply Qltb_ge in E'. lra.
  - apply Qltb_ge in E. apply Qltb_lt in E'. lra.
Qed.

Lemma Qeq_bool_zero_compat (a b : Q) : a == b -> Qeq_bool a 0 = Qeq_bool b 0.
Proof.
  intros H. destruct (Qeq_bool a 0) eqn:E; destruct (Qeq_bool b 0) eqn:E';
    try reflexivity.
  - apply Qeq_bool_iff in E. apply Qeq_bool_neq in E'. exfalso. apply E'. lra.
  - apply Qeq_bool_neq in E. apply Qeq_bool_iff in E'. exfalso. apply E. lra.
Qed.

Lemma getSpeed_derived_le_max (container : Area.t) (axis : Axis.t) (d : Q) :
  getSpeed d (getPixelThresholds container axis) <= config.maxScrollSpeed.
Proof.
  set (thresholds := getPixelThresholds container axis).
  destruct (Qlt_le_dec d (startFrom thresholds)) as [Hs | Hs].
  2:{ rewrite getSpeed_far by assumption. unfold config.maxScrollSpeed. lra. }
  destruct (Qlt_le_dec (maxSpeedAt thresholds) d) as [Hm | Hm].
  2:{ rewrite getSpeed_near by assumption. lra. }
  assert (Hsize : 0 < Axis.size axis container).
  { subst thresholds.
    unfold getPixelThresholds, config.startFrom, config.maxSpeedAt in Hs, Hm.
    simpl in Hs, Hm. lra. }
  apply getSpeed_le_max.
  - subst thresholds. unfold getPixelThresholds, config.startFrom, config.maxSpeedAt.
    simpl. lra.
  - subst thresholds. unfold getPixelThresholds. simpl. lra.
Qed.

(** X1: whatever the size of the container -- positive, zero or negative --
    the speed computed with its thresholds lies between 0 and the maximum
    scroll speed; a container without positive size never reaches the ramp,
    its speed is 0 or the maximum. *)
Theorem getSpeed_within_limits (container : Area.t) (axis : Axis.t) (d : Q) :
  0 <= getSpeed d (getPixelThresholds container axis) <= config.maxScrollSpeed /\
  (Axis.size axis container <= 0 ->
   getSpeed d (getPixelThresholds container axis) = 0 \/
   getSpeed d (getPixelThresholds container axis) = config.maxScrollSpeed).
Proof.
  split.
  - split; [apply getSpeed_nonneg | apply getSpeed_derived_le_max].
  - intros Hsize.
    set (thresholds := getPixelThresholds container axis).
    assert (Horder : startFrom thresholds <= maxSpeedAt thresholds).
    { subst thresholds. unfold getPixelThresholds, config.startFrom, config.maxSpeedAt.
      simpl. lra. }
    destruct (Qlt_le_dec d (startFrom thresholds)) as [Hs | Hs].
    + right. apply getSpeed_near; lra.
    + left. now apply getSpeed_far.
Qed.

Lemma getSpeed_within_limits_witness :
  getSpeed (-3) (getPixelThresholds (Area.mk 0 0 0 0 0 0) vertical) = 0 \/
  getSpeed (-3) (getPixelThresholds (Area.mk 0 0 0 0 0 0) vertical)
  = config.maxScrollSpeed.
Proof.
  apply (getSpeed_within_limits (Area.mk 0 0 0 0 0 0) vertical (-3)).
  vm_compute. discriminate.
Defined.

Lemma getSpeed_zero_far (container : Area.t) (axis : Axis.t) (d : Q) :
  0 < Axis.size axis container ->
  getSpeed d (getPixelThresholds container axis) == 0 ->
  startFrom (getPixelThresholds container axis) <= d.
Proof.
  intros Hsize Hzero.
  set (thresholds := getPixelThresholds container axis) in *.
  destruct (Qlt_le_dec d (startFrom thresholds)) as [Hs | Hs]; [| assumption].
  exfalso.
  assert (Hacc : 0 < accelerationPlane thresholds).
  { subst thresholds. unfold getPixelThresholds, config.startFrom, config.maxSpeedAt.
    simpl. lra. }
  assert (Hcover : startFrom thresholds - maxSpeedAt thresholds
                   <= accelerationPlane thresholds).
  { subst thresholds. unfold getPixelThresholds. simpl. lra. }
  destruct (Qlt_le_dec (maxSpeedAt thresholds) d) as [Hm | Hm].
  - rewrite getSpeed_ramp in Hzero by assumption.
    destruct (percentage_range thresholds d Hacc Hcover Hs Hm) as [Hp0 _].
    rewrite ease_square in Hzero. unfold config.maxScrollSpeed in Hzero.
    set (p := _ / _) in *. nra.
  - rewrite getSpeed_near in Hzero by assumption.
    unfold config.maxScrollSpeed in Hzero. lra.
Qed.

Lemma getRequiredScroll_none_iff (container : Area.t) (center : Position.t) :
  getRequiredScroll container center = None <->
  requiredX container (edgeDistances container center) == 0 /\
  requiredY container (edgeDistances container center) == 0.
Proof.
  unfold getRequiredScroll, isEqual. cbn [Position.x Position.y origin].
  destruct (Qeq_bool (requiredX _ _) 0) eqn:Ex;
    destruct (Qeq_bool (requiredY _ _) 0) eqn:Ey; cbn [andb].
  - apply Qeq_bool_iff in Ex, Ey. tauto.
  - apply Qeq_bool_neq in Ey. split; [discriminate | tauto].
  - apply Qeq_bool_neq in Ex. split; [discriminate | tauto].
  - apply Qeq_bool_neq in Ex. split; [discriminate | tauto].
Qed.

(** X3: for a rectangle of positive size no scroll is required exactly when
    the centre is at least a quarter of the size away from each of the four
    edges. *)
Theorem getRequiredScroll_none_central_zone (container : Area.t) (center : Position.t) :
  0 < Area.width container ->
  0 < Area.height container ->
  let distance := edgeDistances container center in
  getRequiredScroll container center = None <->
  Area.height container * config.startFrom <= Spacing.top distance /\
  Area.height container * config.startFrom <= Spacing.bottom distance /\
  Area.width container * config.startFrom <= Spacing.left distance /\
  Area.width container * config.startFrom <= Spacing.right distance.
Proof.
  intros Hw Hh distance.
  rewrite getRequiredScroll_none_iff. fold distance.
  unfold requiredX, requiredY. cbv zeta.
  set (thV := getPixelThresholds container vertical).
  set (thH := getPixelThresholds container horizontal).
  change (Area.height container * config.startFrom) with (startFrom thV).
  change (Area.width container * config.startFrom) with (startFrom thH).
  assert (Hfar_v : forall d, getSpeed d thV == 0 -> startFrom thV <= d)
    by (intros d; now apply getSpeed_zero_far).
  assert (Hfar_h : forall d, getSpeed d thH == 0 -> startFrom thH <= d)
    by (intros d; now apply getSpeed_zero_far).
  clearbody distance thV thH.
  split.
  - intros [Hzx Hzy].
    destruct (Qltb (Spacing.bottom distance) (Spacing.top distance)) eqn:Ev;
      destruct (Qltb (Spacing.right distance) (Spacing.left distance)) eqn:Eh;
      rewrite ?Qltb_lt in Ev; rewrite ?Qltb_ge in Ev;
      rewrite ?Qltb_lt in Eh; rewrite ?Qltb_ge in Eh.
    all: match type of Hzy with
         | -1 * getSpeed ?d _ == 0 =>
           assert (Hzy' : getSpeed d thV == 0) by lra; pose proof (Hfar_v d Hzy')
         | getSpeed ?d _ == 0 => pose proof (Hfar_v d Hzy)
         end.
    all: match type of Hzx with
         | -1 * getSpeed ?d _ == 0 =>
           assert (Hzx' : getSpeed d thH == 0) by lra; pose proof (Hfar_h d Hzx')
         | getSpeed ?d _ == 0 => pose proof (Hfar_h d Hzx)
         end.
    all: repeat split; lra.
  - intros (Ht & Hb & Hl & Hr).
    rewrite (getSpeed_far thV _ Ht), (getSpeed_far thV _ Hb),
            (getSpeed_far thH _ Hl), (getSpeed_far thH _ Hr).
    destruct (Qltb _ _); destruct (Qltb _ _); split; reflexivity.
Qed.

Lemma getRequiredScroll_none_central_zone_witness :
  getRequiredScroll sampleViewport (Position.mk 500 400) = None.
Proof.
  apply (getRequiredScroll_none_central_zone sampleViewport (Position.mk 500 400));
    try reflexivity.
  repeat split; vm_compute; discriminate.
Defined.

(** X4: a centre on or beyond the bottom edge of a rectangle of positive
    height (whose edges agree with its height) scrolls down at exactly the
    maximum speed, and on or beyond the top edge up at the maximum speed:
    overshooting the edge does not raise the speed any further. *)
Theorem getRequiredScroll_beyond_edge (container : Area.t) (center : Position.t) :
  0 < Area.height container ->
  Area.bottom container - Area.top container == Area.height container ->
  (Area.bottom container <= Position.y center ->
   exists required : Position.t,
     getRequiredScroll container center = Some required /\
     Position.y required = config.maxScrollSpeed) /\
  (Position.y center <= Area.top container ->
   exists required : Position.t,
     getRequiredScroll container center = Some required /\
     Position.y required = -1 * config.maxScrollSpeed).
Proof.
  intros Hh Hy.
  set (distance := edgeDistances container center).
  set (thV := getPixelThresholds container vertical).
  assert (Hsf : startFrom thV == Area.height container * (1 # 4))
    by (cbn; unfold config.startFrom; lra).
  assert (Hms : maxSpeedAt thV == Area.height container * (1 # 20))
    by (cbn; unfold config.maxSpeedAt; lra).
  split; intros Hedge.
  - assert (Hb : Spacing.bottom distance <= 0) by (cbn; lra).
    assert (Ht : 0 < Spacing.top distance) by (cbn; lra).
    assert (HY : requiredY container distance = config.maxScrollSpeed).
    { unfold requiredY. cbv zeta. fold thV.
      assert (E : Qltb (Spacing.bottom distance) (Spacing.top distance) = true)
        by (apply Qltb_lt; lra).
      rewrite E. apply getSpeed_near; lra. }
    exists (Position.mk (requiredX container distance) (requiredY container distance)).
    split; [| exact HY].
    unfold getRequiredScroll, isEqual. cbn [Position.x Position.y origin].
    fold distance. rewrite HY.
    replace (Qeq_bool config.maxScrollSpeed 0) with false by reflexivity.
    rewrite andb_false_r. rewrite <- HY. reflexivity.
  - assert (Ht : Spacing.top distance <= 0) by (cbn; lra).
    assert (Hb : 0 < Spacing.bottom distance) by (cbn; lra).
    assert (HY : requiredY container distance = -1 * config.maxScrollSpeed).
    { unfold requiredY. cbv zeta. fold thV.
      assert (E : Qltb (Spacing.bottom distance) (Spacing.top distance) = false)
        by (apply Qltb_ge; lra).
      rewrite E. f_equal. apply getSpeed_near; lra. }
    exists (Position.mk (requiredX container distance) (requiredY container distance)).
    split; [| exact HY].
    unfold getRequiredScroll, isEqual. cbn [Position.x Position.y origin].
    fold distance. rewrite HY.
    replace (Qeq_bool (-1 * config.maxScrollSpeed) 0) with false by reflexivity.
    rewrite andb_false_r. rewrite <- HY. reflexivity.
Qed.

Lemma getRequiredScroll_beyond_edge_witness :
  (exists required : Position.t,
     getRequiredScroll sampleViewport (Position.mk 500 850) = Some required /\
     Position.y required = config.maxScrollSpeed) /\
  (exists required : Position.t,
     getRequiredScroll sampleViewport (Position.mk 500 (-30)) = Some required /\
     Position.y required = -1 * config.maxScrollSpeed).
Proof.
  split.
  - apply (getRequiredScroll_beyond_edge sampleViewport (Position.mk 500 850));
      try reflexivity.
    vm_compute. discriminate.
  - apply (getRequiredScroll_beyond_edge sampleViewport (Position.mk 500 (-30)));
      try reflexivity.
    vm_compute. discriminate.
Defined.

(** X5: a vector returned by the solver is never the zero vector, and neither
    of its components exceeds the maximum scroll speed in magnitude, for
    every rectangle and centre. *)
Theorem getRequiredScroll_nonzero_and_bounded
    (container : Area.t) (center required : Position.t) :
  getRequiredScroll container center = Some required ->
  ~ (Position.x required == 0 /\ Position.y required == 0) /\
  - config.maxScrollSpeed <= Position.x required <= config.maxScrollSpeed /\
  - config.maxScrollSpeed <= Position.y required <= config.maxScrollSpeed.
Proof.
  intros Hsome. split.
  - intros Hzero.
    assert (Hnone : getRequiredScroll container center = None).
    { apply getRequiredScroll_none_iff.
      apply getRequiredScroll_some in Hsome. subst required. exact Hzero. }
    congruence.
  - apply getRequiredScroll_some in Hsome. subst required.
    cbn [Position.x Position.y]. unfold requiredX, requiredY. cbv zeta.
    assert (Hv : forall d, 0 <= getSpeed d (getPixelThresholds container vertical)
                           <= config.maxScrollSpeed)
      by (intros d; split; [apply getSpeed_nonneg | apply getSpeed_derived_le_max]).
    assert (Hh : forall d, 0 <= getSpeed d (getPixelThresholds container horizontal)
                           <= config.maxScrollSpeed)
      by (intros d; split; [apply getSpeed_nonneg | apply getSpeed_derived_le_max]).
    unfold config.maxScrollSpeed in *.
    split.
    + destruct (Qltb _ _);
        [pose proof (Hh (Spacing.right (edgeDistances container center)))
        |pose proof (Hh (Spacing.left (edgeDistances container center)))]; lra.
    + destruct (Qltb _ _);
        [pose proof (Hv (Spacing.bottom (edgeDistances container center)))
        |pose proof (Hv (Spacing.top (edgeDistances container center)))]; lra.
Qed.

Lemma getRequiredScroll_nonzero_and_bounded_witness :
  let required := Position.mk (-1 * 0) 28 in
  ~ (Position.x required == 0 /\ Position.y required == 0) /\
  - config.maxScrollSpeed <= Position.x required <= config.maxScrollSpeed /\
  - config.maxScrollSpeed <= Position.y required <= config.maxScrollSpeed.
Proof.
  apply (getRequiredScroll_nonzero_and_bounded sampleViewport (Position.mk 500 790)).
  vm_compute. reflexivity.
Defined.

Lemma requiredY_compat (container container' : Area.t) (d d' : Spacing.t) :
  Area.height container = Area.height container' ->
  Spacing.top d == Spacing.top d' ->
  Spacing.bottom d == Spacing.bottom d' ->
  requiredY container d == requiredY container' d'.
Proof.
  intros Hsize Ht Hb. unfold requiredY, getPixelThresholds. cbv zeta.
  cbn [Axis.size vertical]. rewrite <- Hsize.
  rewrite (Qltb_compat _ _ _ _ Hb Ht).
  destruct (Qltb _ _).
  - now apply getSpeed_compat.
  - now rewrite (getSpeed_compat _ _ _ Ht).
Qed.

Lemma requiredX_compat (container container' : Area.t) (d d' : Spacing.t) :
  Area.width container = Area.width container' ->
  Spacing.left d == Spacing.left d' ->
  Spacing.right d == Spacing.right d' ->
  requiredX container d == requiredX container' d'.
Proof.
  intros Hsize Hl Hr. unfold requiredX, getPixelThresholds. cbv zeta.
  cbn [Axis.size horizontal]. rewrite <- Hsize.
  rewrite (Qltb_compat _ _ _ _ Hr Hl).
  destruct (Qltb _ _).
  - now apply getSpeed_compat.
  - now rewrite (getSpeed_compat _ _ _ Hl).
Qed.

Lemma sameScroll_of_components (x y x' y' : Q) :
  x == x' -> y == y' ->
  sameScroll
    (if isEqual (Position.mk x y) origin then None else Some (Position.mk x y))
    (if isEqual (Position.mk x' y') origin then None else Some (Position.mk x' y')).
Proof.
  intros Hx Hy. unfold isEqual. cbn [Position.x Position.y origin].
  rewrite (Qeq_bool_zero_compat _ _ Hx), (Qeq_bool_zero_compat _ _ Hy).
  destruct (Qeq_bool x' 0 && Qeq_bool y' 0); cbn; auto.
Qed.

(** X6: the solver only looks at the position of the centre relative to the
    rectangle: moving both by the same vector leaves the required scroll
    unchanged. *)
Theorem getRequiredScroll_translation_invariant
    (container : Area.t) (center offset : Position.t) :
  sameScroll (getRequiredScroll (translate container offset) (add center offset))
             (getRequiredScroll container center).
Proof.
  unfold getRequiredScroll. cbv zeta. apply sameScroll_of_components.
  - apply requiredX_compat; [reflexivity | cbn; ring | cbn; ring].
  - apply requiredY_compat; [reflexivity | cbn; ring | cbn; ring].
Qed.

(** X7: reflecting the centre across the horizontal middle line of the
    rectangle reverses the vertical component and keeps the horizontal one,
    unless the centre lies on the middle line itself, where both edges are
    equally far. *)
Theorem getRequiredScroll_mirror (container : Area.t) (center : Position.t) :
  ~ Spacing.top (edgeDistances container center)
    == Spacing.bottom (edgeDistances container center) ->
  sameScroll (getRequiredScroll container (mirrorVertically container center))
             (option_map negateY (getRequiredScroll container center)).
Proof.
  intros Hoff.
  set (distance := edgeDistances container center) in *.
  set (distance' := edgeDistances container (mirrorVertically container center)).
  assert (Ht : Spacing.top distance' == Spacing.bottom distance) by (cbn; ring).
  assert (Hb : Spacing.bottom distance' == Spacing.top distance) by (cbn; ring).
  assert (HX : requiredX container distance' == requiredX container distance)
    by (apply requiredX_compat; reflexivity).
  assert (HY : requiredY container distance' == - requiredY container distance).
  { unfold requiredY. cbv zeta.
    set (thresholds := getPixelThresholds container vertical).
    rewrite (Qltb_compat _ _ _ _ Hb Ht).
    destruct (Qltb (Spacing.bottom distance) (Spacing.top distance)) eqn:E.
    - apply Qltb_lt in E.
      assert (E' : Qltb (Spacing.top distance) (Spacing.bottom distance) = false)
        by (apply Qltb_ge; lra).
      rewrite E', (getSpeed_compat thresholds _ _ Ht). ring.
    - apply Qltb_ge in E.
      assert (E' : Qltb (Spacing.top distance) (Spacing.bottom distance) = true).
      { apply Qltb_lt. destruct (Qlt_le_dec (Spacing.top distance)
                                             (Spacing.bottom distance)) as [Hlt | Hge];
          [assumption | exfalso; apply Hoff; lra]. }
      rewrite E', (getSpeed_compat thresholds _ _ Hb). ring. }
  unfold getRequiredScroll. cbv zeta. fold distance distance'.
  unfold isEqual. cbn [Position.x Position.y origin].
  rewrite (Qeq_bool_zero_compat _ _ HX).
  assert (HZ : Qeq_bool (requiredY container distance') 0
               = Qeq_bool (requiredY container distance) 0).
  { destruct (Qeq_bool (requiredY container distance) 0) eqn:E.
    - apply Qeq_bool_iff in E. apply Qeq_bool_iff. lra.
    - apply Qeq_bool_neq in E.
      destruct (Qeq_bool (requiredY container distance') 0) eqn:E'; [| reflexivity].
      apply Qeq_bool_iff in E'. exfalso. apply E. lra. }
  rewrite HZ.
  destruct (Qeq_bool (requiredX container distance) 0
            && Qeq_bool (requiredY container distance) 0); cbn; auto.
Qed.

Lemma getRequiredScroll_mirror_witness :
  sameScroll (getRequiredScroll sampleViewport (Position.mk 500 10))
             (option_map negateY (getRequiredScroll sampleViewport (Position.mk 500 790))).
Proof.
  apply (getRequiredScroll_mirror sampleViewport (Position.mk 500 790)).
  vm_compute. discriminate.
Defined.

(** X8: in a rectangle of non-negative height whose edges agree with its
    height, a centre equally far from top and bottom gets a zero vertical
    component: the tie-break towards the top never produces a scroll. *)
Theorem getRequiredScroll_tie_is_zero (container : Area.t) (center : Position.t) :
  0 <= Area.height container ->
  Area.bottom container - Area.top container == Area.height container ->
  Spacing.bottom (edgeDistances container center)
  == Spacing.top (edgeDistances container center) ->
  requiredY container (edgeDistances container center) = -1 * 0 /\
  forall required : Position.t,
    getRequiredScroll container center = Some required ->
    Position.y required == 0 /\ ~ Position.x required == 0.
Proof.
  intros Hh Hy Htie.
  set (distance := edgeDistances container center) in *.
  assert (HY : requiredY container distance = -1 * 0).
  { unfold requiredY. cbv zeta.
    assert (E : Qltb (Spacing.bottom distance) (Spacing.top distance) = false)
      by (apply Qltb_ge; lra).
    rewrite E. f_equal. apply getSpeed_far.
    cbn [getPixelThresholds startFrom Axis.size vertical].
    unfold config.startFrom. cbn in Htie |- *. lra. }
  split; [exact HY |].
  intros required Hsome.
  pose proof (getRequiredScroll_some _ _ _ Hsome) as Hreq.
  fold distance in Hreq. subst required. cbn [Position.x Position.y].
  rewrite HY. split; [reflexivity |].
  intros Hx.
  assert (Hnone : getRequiredScroll container center = None).
  { apply getRequiredScroll_none_iff. fold distance. rewrite HY.
    split; [exact Hx | reflexivity]. }
  congruence.
Qed.

Lemma getRequiredScroll_tie_is_zero_witness :
  requiredY sampleViewport (edgeDistances sampleViewport (Position.mk 990 400))
  = -1 * 0.
Proof.
  apply (getRequiredScroll_tie_is_zero sampleViewport (Position.mk 990 400));
    vm_compute; try reflexivity; discriminate.
Defined.

(** ** The scroll paths *)

(** Follows every branch of a path, the drag mode included. *)
Ltac allBranches :=
  repeat (match goal with
          | |- context [match ?scrutinee with _ => _ end] =>
            lazymatch type of scrutinee with
            | bool => destruct scrutinee eqn:?
            | option _ => destruct scrutinee eqn:?
            | AutoScrollMode => destruct scrutinee eqn:?
            end
          end; step).

(** X9: fitting is an order on rectangles: a rectangle fits itself (an item
    exactly as large as the frame is still auto-scrolled), and an item that
    fits a frame fits every frame this one fits. *)
Theorem isTooBigForAutoScrolling_order :
  (forall a : Area.t, isTooBigForAutoScrolling a a = false) /\
  (forall a b : Area.t,
     Area.width a == Area.width b -> Area.height a == Area.height b ->
     isTooBigForAutoScrolling a b = false) /\
  (forall outer middle inner : Area.t,
     isTooBigForAutoScrolling outer middle = false ->
     isTooBigForAutoScrolling middle inner = false ->
     isTooBigForAutoScrolling outer inner = false).
Proof.
  assert (Hfits : forall frame subject,
            isTooBigForAutoScrolling frame subject = false <->
            Area.width subject <= Area.width frame /\
            Area.height subject <= Area.height frame).
  { intros frame subject. unfold isTooBigForAutoScrolling, Qgtb.
    rewrite orb_false_iff, !Qltb_ge. reflexivity. }
  split; [| split].
  - intros a. apply Hfits. split; lra.
  - intros a b Hw Hh. apply Hfits. split; lra.
  - intros outer middle inner Hom Hmi.
    apply Hfits in Hom, Hmi. apply Hfits. split; lra.
Qed.

Lemma isTooBigForAutoScrolling_order_witness :
  isTooBigForAutoScrolling sampleViewport sampleItem = false.
Proof.
  destruct isTooBigForAutoScrolling_order as (_ & _ & Htrans).
  apply (Htrans sampleViewport (Area.mk 100 400 500 100 300 400) sampleItem);
    reflexivity.
Defined.

Lemma schedule_unchanged (s : Scheduler) (e : Event) :
  isScheduling e = false -> isCancel e = false -> schedule s e = s.
Proof. destruct e; cbn; intros; congruence || reflexivity. Qed.

Lemma scheduleAll_unchanged (s : Scheduler) (es : list Event) :
  existsb isScheduling es = false ->
  existsb isCancel es = false ->
  scheduleAll s es = s.
Proof.
  unfold scheduleAll. induction es as [| e es IH]; intros Hsched Hcancel.
  - reflexivity.
  - cbn [existsb] in Hsched, Hcancel.
    apply orb_false_iff in Hsched as [He Hes].
    apply orb_false_iff in Hcancel as [He' Hes'].
    cbn [fold_left]. rewrite schedule_unchanged by assumption.
    now apply IH.
Qed.

Section FurtherPaths.

Variable env : Collaborators.

Lemma fluidScroll_cancels_nothing (state : State) :
  existsb isCancel (events (fluidScroll env state)) = false.
Proof.
  unfold events, fluidScroll, fluidScrollDroppable. step. branches.
  all: reflexivity.
Qed.

Lemma fluidScroll_acts_not (state : State) :
  existsb isScrollPrimitive (events (fluidScroll env state)) = false /\
  existsb isMove (events (fluidScroll env state)) = false.
Proof.
  unfold events, fluidScroll, fluidScrollDroppable. step. branches.
  all: split; reflexivity.
Qed.

Lemma jumpScroll_cancels_nothing (state : State) :
  existsb isCancel (events (jumpScroll env state)) = false.
Proof.
  unfold events, jumpScroll, jumpScrollWindow, performMove. step. branches.
  all: reflexivity.
Qed.

(** X10: the fluid path only ever schedules: it performs no scroll itself,
    moves nothing, cancels nothing, schedules at most one scroll and runs
    the solver at most twice. *)
Theorem fluidScroll_only_schedules (state : State) :
  let es := events (fluidScroll env state) in
  existsb isScrollPrimitive es = false /\
  existsb isMove es = false /\
  existsb isCancel es = false /\
  (occurrences isScheduling es <= 1)%nat /\
  (occurrences isSolve es <= 2)%nat.
Proof.
  unfold events, fluidScroll, fluidScrollDroppable. step. branches.
  all: cbn; repeat split; lia.
Qed.

(** X11: whatever the fluid path schedules is the solver's answer for the
    target and was accepted by the target's capability oracle: for the
    window the answer for the viewport; for a droppable the answer for the
    frame of the scrollable droppable under the centre, scheduled under that
    droppable's descriptor id. *)
Theorem fluidScroll_schedules_solver_output
    (state : State) (dragging : DragState) :
  drag state = Some dragging ->
  let center := current_page_center dragging in
  let es := events (fluidScroll env state) in
  (forall change : Position.t,
     In (ScheduleWindowScroll change) es ->
     getRequiredScroll (getViewport env) center = Some change /\
     canScrollWindow env change = true) /\
  (forall (id : DroppableId) (change : Position.t),
     In (ScheduleDroppableScroll id change) es ->
     exists (droppable : DroppableDimension) (closestScrollable : ClosestScrollable),
       getScrollableDroppableOver env center (dimension_droppable state)
         = Some droppable /\
       viewport_closestScrollable droppable = Some closestScrollable /\
       id = descriptor_id droppable /\
       getRequiredScroll (frame closestScrollable) center = Some change /\
       canScrollDroppable env droppable change = true).
Proof.
  intros Hdrag center es. subst center es.
  unfold events, fluidScroll, fluidScrollDroppable. rewrite Hdrag. step.
  split.
  - intros change. branches.
    all: cbn [In]; intros Hin.
    all: repeat (destruct Hin as [Hin | Hin]; try discriminate Hin).
    all: try contradiction.
    injection Hin as <-. split; reflexivity || assumption.
  - intros id change. branches.
    all: cbn [In]; intros Hin.
    all: repeat (destruct Hin as [Hin | Hin]; try discriminate Hin).
    all: try contradiction.
    all: injection Hin as <- <-.
    all: eexists; eexists; repeat split; reflexivity || eassumption.
Qed.

(** X12: the jump path never schedules, never runs the solver and never
    cancels; it performs at most one scroll and at most one move, and a
    scroll it performs carries exactly the requested delta. *)
Theorem jumpScroll_is_immediate (state : State) :
  let es := events (jumpScroll env state) in
  existsb isScheduling es = false /\
  existsb isSolve es = false /\
  existsb isCancel es = false /\
  (occurrences isScrollPrimitive es <= 1)%nat /\
  (occurrences isMove es <= 1)%nat /\
  (forall (e : Event) (change : Position.t),
     In e es -> scrollDelta e = Some change ->
     exists dragging : DragState,
       drag state = Some dragging /\ scrollJumpRequest dragging = Some change).
Proof.
  unfold events, jumpScroll, jumpScrollWindow, performMove. step. branches.
  all: cbn -[In]; repeat split; try lia.
  all: intros e change Hin Hdelta; cbn [In] in Hin.
  all: repeat (destruct Hin as [<- | Hin]; try discriminate Hdelta).
  all: try contradiction.
  all: injection Hdelta as <-; eexists; split; [reflexivity | assumption].
Qed.

(** X13: a jump request with a destination is never dropped: when the call
    completes, it has either performed exactly one scroll, or no scroll and
    a move of the item by the full requested delta. *)
Theorem jumpScroll_request_is_served
    (state : State) (dragging : DragState) (request : Position.t)
    (destination : DraggableLocation) :
  drag state = Some dragging ->
  scrollJumpRequest dragging = Some request ->
  impact_destination dragging = Some destination ->
  snd (jumpScroll env state) = Some tt ->
  let es := events (jumpScroll env state) in
  occurrences isScrollPrimitive es = 1%nat \/
  (occurrences isScrollPrimitive es = 0%nat /\
   In (Move (initial_descriptor_id dragging)
            (add (current_client_selection dragging) request)
            (getWindowScrollPosition env) true) es).
Proof.
  intros Hdrag Hreq Hdest.
  unfold events, jumpScroll, jumpScrollWindow, performMove.
  rewrite Hdrag, Hreq, Hdest. step. branches.
  all: cbn -[In]; intros Hdone; try discriminate Hdone.
  all: first [left; reflexivity | right; split; [reflexivity | cbn; tauto]].
Qed.

(** X14: when the jump path reaches the window, the viewport is large enough
    for the item and the window can scroll, the window is scrolled at once by
    the request, preceded by a move of the item by the overlap that
    [getWindowOverlap] reports, if any. *)
Theorem jumpScroll_window
    (state : State) (dragging : DragState) (request : Position.t)
    (destination : DraggableLocation) (draggable : DraggableDimension)
    (droppable : DroppableDimension) :
  drag state = Some dragging ->
  scrollJumpRequest dragging = Some request ->
  impact_destination dragging = Some destination ->
  dimension_draggable state !! initial_descriptor_id dragging = Some draggable ->
  dimension_droppable state !! droppableId destination = Some droppable ->
  reachesWindow env droppable (page_withMargin draggable) request = true ->
  isTooBigForAutoScrolling (getViewport env) (page_withMargin draggable) = false ->
  canScrollWindow env request = true ->
  jumpScroll env state =
    match getWindowOverlap env request with
    | Some overlap =>
      ([ConsoleWarn "WINDOW OVERLAP" (Some overlap);
        Move (initial_descriptor_id dragging)
             (add (current_client_selection dragging) overlap)
             (getWindowScrollPosition env) true;
        ScrollWindow request],
       Some tt)
    | None => ([ScrollWindow request], Some tt)
    end.
Proof.
  intros Hdrag Hreq Hdest Hdraggable Hdroppable Hreach Hfits Hcan.
  unfold reachesWindow in Hreach.
  unfold jumpScroll, jumpScrollWindow, performMove.
  rewrite Hdrag, Hreq, Hdest, Hdroppable, Hdraggable.
  destruct (viewport_closestScrollable droppable) as [closestScrollable |]; step.
  - apply andb_true_iff in Hreach as [Hframe Hrefuses].
    apply negb_true_iff in Hframe, Hrefuses.
    rewrite Hframe, Hrefuses, Hfits, Hcan. cbn [negb].
    destruct (getWindowOverlap env request); reflexivity.
  - rewrite Hfits, Hcan. cbn [negb].
    destruct (getWindowOverlap env request); reflexivity.
Qed.

(** X15: when the jump path reaches the window and the window cannot scroll
    in the requested direction either, or the viewport is too small for the
    item, nothing is scrolled and the item is moved by the full request. *)
Theorem jumpScroll_nothing_scrolls
    (state : State) (dragging : DragState) (request : Position.t)
    (destination : DraggableLocation) (draggable : DraggableDimension)
    (droppable : DroppableDimension) :
  drag state = Some dragging ->
  scrollJumpRequest dragging = Some request ->
  impact_destination dragging = Some destination ->
  dimension_draggable state !! initial_descriptor_id dragging = Some draggable ->
  dimension_droppable state !! droppableId destination = Some droppable ->
  reachesWindow env droppable (page_withMargin draggable) request = true ->
  isTooBigForAutoScrolling (getViewport env) (page_withMargin draggable) = true \/
  canScrollWindow env request = false ->
  existsb isScrollPrimitive (events (jumpScroll env state)) = false /\
  List.filter isMove (events (jumpScroll env state)) =
    [Move (initial_descriptor_id dragging)
          (add (current_client_selection dragging) request)
          (getWindowScrollPosition env) true] /\
  snd (jumpScroll env state) = Some tt.
Proof.
  intros Hdrag Hreq Hdest Hdraggable Hdroppable Hreach Hstuck.
  unfold reachesWindow in Hreach.
  unfold events, jumpScroll, jumpScrollWindow, performMove.
  rewrite Hdrag, Hreq, Hdest, Hdroppable, Hdraggable.
  destruct (viewport_closestScrollable droppable) as [closestScrollable |]; step.
  - apply andb_true_iff in Hreach as [Hframe Hrefuses].
    apply negb_true_iff in Hframe, Hrefuses.
    rewrite Hframe, Hrefuses.
    destruct Hstuck as [Hbig | Hcannot].
    + rewrite Hbig. repeat split.
    + rewrite Hcannot.
      destruct (isTooBigForAutoScrolling (getViewport env) _); repeat split.
  - destruct Hstuck as [Hbig | Hcannot].
    + rewrite Hbig. repeat split.
    + rewrite Hcannot.
      destruct (isTooBigForAutoScrolling (getViewport env) _); repeat split.
Qed.

(** X16: when the droppable can take the request and the window could
    scroll as well, the droppable alone is scrolled and the item is not
    moved, whatever overlap [getDroppableOverlap] would report and whatever
    the size of the viewport. *)
Theorem jumpScroll_droppable_before_window
    (state : State) (dragging : DragState) (request : Position.t)
    (destination : DraggableLocation) (draggable : DraggableDimension)
    (droppable : DroppableDimension) (closestScrollable : ClosestScrollable) :
  drag state = Some dragging ->
  scrollJumpRequest dragging = Some request ->
  impact_destination dragging = Some destination ->
  dimension_draggable state !! initial_descriptor_id dragging = Some draggable ->
  dimension_droppable state !! droppableId destination = Some droppable ->
  viewport_closestScrollable droppable = Some closestScrollable ->
  isTooBigForAutoScrolling (frame closestScrollable) (page_withMargin draggable) = false ->
  canScrollDroppable env droppable request = true ->
  canScrollWindow env request = true ->
  jumpScroll env state
    = ([ScrollDroppable (descriptor_id droppable) request], Some tt).
Proof.
  intros Hdrag Hreq Hdest Hdraggable Hdroppable Hclosest Hfits Hcan Hwindow.
  unfold jumpScroll.
  rewrite Hdrag, Hreq, Hdest, Hdroppable, Hclosest, Hdraggable. step.
  now rewrite Hfits, Hcan, Hwindow.
Qed.

(** X17: a notification outside a drag does nothing: neither between two
    phases that are not the dragging phase, nor during a jump-mode drag
    whose state carries no scroll request. *)
Theorem onStateChange_does_nothing (previous current : State) :
  (phase previous <> "DRAGGING" ->
   phase current <> "DRAGGING" ->
   onStateChange env previous current = ([], Some tt)) /\
  (forall dragging : DragState,
     phase current = "DRAGGING" ->
     drag current = Some dragging ->
     initial_autoScrollMode dragging = JUMP ->
     scrollJumpRequest dragging = None ->
     onStateChange env previous current = ([], Some tt)).
Proof.
  split.
  - intros Hprev Hcur. apply String.eqb_neq in Hprev, Hcur.
    unfold onStateChange, cancelIfNoLongerDragging. now rewrite Hcur, Hprev.
  - intros dragging Hphase Hdrag Hmode Hreq.
    unfold onStateChange. now rewrite Hphase, Hdrag, Hmode, Hreq.
Qed.

(** X18: while the current phase is the dragging phase, the previous state
    plays no part and no pending scroll is cancelled. *)
Theorem onStateChange_dragging_ignores_previous (previous previous' current : State) :
  phase current = "DRAGGING" ->
  onStateChange env previous current = onStateChange env previous' current /\
  existsb isCancel (events (onStateChange env previous current)) = false.
Proof.
  intros Hphase.
  assert (Hstay : forall p, cancelIfNoLongerDragging p current = ([], Some tt)).
  { intros p. unfold cancelIfNoLongerDragging.
    now rewrite Hphase, andb_false_r. }
  split.
  - unfold onStateChange. now rewrite !Hstay.
  - unfold events, onStateChange. rewrite Hphase, Hstay. cbn [String.eqb].
    replace (String.eqb "DRAGGING" "DRAGGING") with true by reflexivity.
    pose proof (fluidScroll_cancels_nothing current) as Hfluid.
    pose proof (jumpScroll_cancels_nothing current) as Hjump.
    unfold events in Hfluid, Hjump.
    destruct (drag current) as [dragging |]; [| reflexivity].
    destruct (initial_autoScrollMode dragging); [exact Hfluid |].
    destruct (scrollJumpRequest dragging); [| reflexivity].
    destruct (jumpScroll env current) as [es [[] |]]; step.
    + rewrite app_nil_r. exact Hjump.
    + exact Hjump.
Qed.

(** X19: a call that is cut short by a [TypeError] has had no effect on the
    outside: nothing was scrolled, scheduled, cancelled, moved or logged
    before the error. *)
Theorem onStateChange_throws_without_effect (previous current : State) :
  snd (onStateChange env previous current) = None ->
  forallb isSolve (events (onStateChange env previous current)) = true.
Proof.
  unfold events, onStateChange, cancelIfNoLongerDragging,
    fluidScroll, fluidScrollDroppable, jumpScroll, jumpScrollWindow, performMove.
  step. allBranches.
  all: cbn; intros Hthrown; try discriminate Hthrown; reflexivity.
Qed.

(** X20: ids that are not registered raise a [TypeError] before anything
    happens: a destination droppable missing from the registry, and a
    dragged item missing from the registry, in either mode. *)
Theorem unregistered_ids_throw (state : State) (dragging : DragState) :
  drag state = Some dragging ->
  (forall (request : Position.t) (destination : DraggableLocation),
     scrollJumpRequest dragging = Some request ->
     impact_destination dragging = Some destination ->
     dimension_droppable state !! droppableId destination = None ->
     jumpScroll env state = ([], None)) /\
  (forall (request : Position.t) (destination : DraggableLocation)
          (droppable : DroppableDimension),
     scrollJumpRequest dragging = Some request ->
     impact_destination dragging = Some destination ->
     dimension_droppable state !! droppableId destination = Some droppable ->
     dimension_draggable state !! initial_descriptor_id dragging = None ->
     jumpScroll env state = ([], None)) /\
  (dimension_draggable state !! initial_descriptor_id dragging = None ->
   fluidScroll env state = ([], None)).
Proof.
  intros Hdrag. split; [| split].
  - intros request destination Hreq Hdest Hmissing.
    unfold jumpScroll. now rewrite Hdrag, Hreq, Hdest, Hmissing.
  - intros request destination droppable Hreq Hdest Hdroppable Hmissing.
    unfold jumpScroll. rewrite Hdrag, Hreq, Hdest, Hdroppable, Hmissing.
    destruct (viewport_closestScrollable droppable); reflexivity.
  - intros Hmissing. unfold fluidScroll. now rewrite Hdrag, Hmissing.
Qed.

(** X21: the two modes do not mix.  A jump-mode drag never schedules a scroll
    and never runs the solver, so it leaves the frame scheduler as it was; a
    fluid-mode drag never scrolls at once and never moves the item, even when
    its state carries a scroll jump request. *)
Theorem onStateChange_modes_do_not_mix
    (previous current : State) (dragging : DragState) (pending : Scheduler) :
  phase current = "DRAGGING" ->
  drag current = Some dragging ->
  let es := events (onStateChange env previous current) in
  (initial_autoScrollMode dragging = JUMP ->
   existsb isScheduling es = false /\
   existsb isSolve es = false /\
   snd (notify env pending previous current) = pending) /\
  (initial_autoScrollMode dragging = FLUID ->
   existsb isScrollPrimitive es = false /\
   existsb isMove es = false).
Proof.
  intros Hphase Hdrag es. subst es. split; intros Hmode.
  - assert (Hquiet :
      existsb isScheduling (events (onStateChange env previous current)) = false /\
      existsb isSolve (events (onStateChange env previous current)) = false /\
      existsb isCancel (events (onStateChange env previous current)) = false).
    { unfold events, onStateChange, cancelIfNoLongerDragging,
        jumpScroll, jumpScrollWindow, performMove.
      rewrite Hphase, Hdrag, Hmode.
      replace (String.eqb "DRAGGING" "DRAGGING") with true by reflexivity.
      cbn [negb]. rewrite andb_false_r. step. branches.
      all: cbn; repeat split. }
    destruct Hquiet as (Hsched & Hsolve & Hcancel).
    repeat split; try assumption.
    unfold notify. cbn [snd].
    apply scheduleAll_unchanged; assumption.
  - unfold events, onStateChange. rewrite Hphase, Hdrag, Hmode.
    replace (String.eqb "DRAGGING" "DRAGGING") with true by reflexivity.
    exact (fluidScroll_acts_not current).
Qed.
End FurtherPaths.

Lemma jumpScroll_is_immediate_witness :
  exists dragging : DragState,
    drag (jumpBy (Position.mk 0 60) sampleItem) = Some dragging /\
    scrollJumpRequest dragging = Some (Position.mk 0 60).
Proof.
  destruct (jumpScroll_is_immediate freeWindow (jumpBy (Position.mk 0 60) sampleItem))
    as (_ & _ & _ & _ & _ & Hdelta).
  apply (Hdelta (ScrollDroppable "list" (Position.mk 0 60))).
  - vm_compute. left. reflexivity.
  - reflexivity.
Defined.

Lemma fluidScroll_schedules_solver_output_witness :
  getRequiredScroll sampleViewport (Position.mk 500 790)
    = Some (Position.mk (-1 * 0) 28) /\
  canScrollWindow freeWindow (Position.mk (-1 * 0) 28) = true.
Proof.
  destruct (fluidScroll_schedules_solver_output freeWindow
              (fluidAt (Position.mk 500 790) sampleItem) _ eq_refl) as [Hwindow _].
  apply Hwindow. vm_compute. right. left. reflexivity.
Defined.

Lemma jumpScroll_request_is_served_witness :
  let es := events (jumpScroll (samplePage false false None None)
                               (jumpBy (Position.mk 0 60) sampleItem)) in
  occurrences isScrollPrimitive es = 1%nat \/
  (occurrences isScrollPrimitive es = 0%nat /\
   In (Move "item" (add (Position.mk 150 120) (Position.mk 0 60)) (Position.mk 0 0) true)
      es).
Proof.
  refine (jumpScroll_request_is_served (samplePage false false None None)
            (jumpBy (Position.mk 0 60) sampleItem) _ (Position.mk 0 60)
            (mkLocation "list" 2) eq_refl eq_refl eq_refl _).
  vm_compute. reflexivity.
Defined.

Lemma jumpScroll_window_witness :
  jumpScroll (samplePage true false (Some (Position.mk 0 15)) None)
             (jumpBy (Position.mk 0 60) sampleItem)
  = ([ConsoleWarn "WINDOW OVERLAP" (Some (Position.mk 0 15));
      Move "item" (add (Position.mk 150 120) (Position.mk 0 15)) (Position.mk 0 0) true;
      ScrollWindow (Position.mk 0 60)],
     Some tt).
Proof.
  set (state := jumpBy (Position.mk 0 60) sampleItem).
  assert (Hitem : dimension_draggable state !! "item" = Some (mkDraggable sampleItem))
    by (vm_compute; reflexivity).
  assert (Hlist : dimension_droppable state !! "list" = Some sampleList)
    by (vm_compute; reflexivity).
  exact (jumpScroll_window (samplePage true false (Some (Position.mk 0 15)) None)
           state _ (Position.mk 0 60) (mkLocation "list" 2) _ _
           eq_refl eq_refl eq_refl Hitem Hlist eq_refl eq_refl eq_refl).
Defined.

Lemma jumpScroll_nothing_scrolls_witness :
  let es := events (jumpScroll (samplePage false false None None)
                               (jumpBy (Position.mk 0 60) sampleItem)) in
  existsb isScrollPrimitive es = false /\
  List.filter isMove es =
    [Move "item" (add (Position.mk 150 120) (Position.mk 0 60)) (Position.mk 0 0) true].
Proof.
  set (state := jumpBy (Position.mk 0 60) sampleItem).
  assert (Hitem : dimension_draggable state !! "item" = Some (mkDraggable sampleItem))
    by (vm_compute; reflexivity).
  assert (Hlist : dimension_droppable state !! "list" = Some sampleList)
    by (vm_compute; reflexivity).
  destruct (jumpScroll_nothing_scrolls (samplePage false false None None)
              state _ (Position.mk 0 60) (mkLocation "list" 2) _ _
              eq_refl eq_refl eq_refl Hitem Hlist eq_refl (or_intror eq_refl))
    as (Hscroll & Hmove & _).
  split; [exact Hscroll | exact Hmove].
Defined.

Lemma jumpScroll_droppable_before_window_witness :
  jumpScroll (samplePage true true None (Some (Position.mk 0 20)))
             (jumpBy (Position.mk 0 60) sampleItem)
  = ([ScrollDroppable "list" (Position.mk 0 60)], Some tt).
Proof.
  set (state := jumpBy (Position.mk 0 60) sampleItem).
  assert (Hitem : dimension_draggable state !! "item" = Some (mkDraggable sampleItem))
    by (vm_compute; reflexivity).
  assert (Hlist : dimension_droppable state !! "list" = Some sampleList)
    by (vm_compute; reflexivity).
  exact (jumpScroll_droppable_before_window
           (samplePage true true None (Some (Position.mk 0 20)))
           state _ (Position.mk 0 60) (mkLocation "list" 2) _ _ _
           eq_refl eq_refl eq_refl Hitem Hlist eq_refl eq_refl eq_refl eq_refl).
Defined.

Lemma onStateChange_does_nothing_witness :
  onStateChange freeWindow (sampleState "IDLE" None sampleItem)
                (sampleState "PREPARING" None sampleItem)
    = ([], Some tt) /\
  (let waiting :=
     sampleState "DRAGGING"
       (Some (sampleDrag JUMP (Position.mk 200 125) (Some (mkLocation "list" 2)) None))
       sampleItem in
   onStateChange freeWindow waiting waiting = ([], Some tt)).
Proof.
  split.
  - apply (proj1 (onStateChange_does_nothing freeWindow _ _)); vm_compute; discriminate.
  - intros waiting.
    exact (proj2 (onStateChange_does_nothing freeWindow waiting waiting)
                 _ eq_refl eq_refl eq_refl eq_refl).
Defined.

Lemma onStateChange_dragging_ignores_previous_witness :
  let current := fluidAt (Position.mk 500 790) sampleItem in
  onStateChange freeWindow (sampleState "IDLE" None sampleItem) current
  = onStateChange freeWindow current current.
Proof.
  intros current.
  exact (proj1 (onStateChange_dragging_ignores_previous freeWindow
                  (sampleState "IDLE" None sampleItem) current current eq_refl)).
Defined.

Lemma onStateChange_throws_without_effect_witness :
  snd (onStateChange freeWindow jumpAstray jumpAstray) = None /\
  forallb isSolve (events (onStateChange freeWindow jumpAstray jumpAstray)) = true.
Proof.
  assert (Hthrown : snd (onStateChange freeWindow jumpAstray jumpAstray) = None)
    by (vm_compute; reflexivity).
  split; [exact Hthrown |].
  exact (onStateChange_throws_without_effect freeWindow jumpAstray jumpAstray Hthrown).
Defined.

Lemma unregistered_ids_throw_witness :
  jumpScroll freeWindow jumpAstray = ([], None).
Proof.
  destruct (unregistered_ids_throw freeWindow jumpAstray _ eq_refl) as [Hdroppable _].
  apply (Hdroppable (Position.mk 0 60) (mkLocation "elsewhere" 0) eq_refl eq_refl).
  vm_compute. reflexivity.
Defined.

Lemma onStateChange_modes_do_not_mix_witness :
  let jumping := jumpBy (Position.mk 0 60) sampleItem in
  let pending := mkScheduler (Some (Position.mk 0 28)) None in
  snd (notify freeWindow pending jumping jumping) = pending /\
  (let fluid :=
     sampleState "DRAGGING"
       (Some (sampleDrag FLUID (Position.mk 500 790) (Some (mkLocation "list" 2))
                         (Some (Position.mk 0 60))))
       sampleItem in
   existsb isScrollPrimitive (events (onStateChange freeWindow fluid fluid)) = false /\
   existsb isMove (events (onStateChange freeWindow fluid fluid)) = false).
Proof.
  intros jumping pending. split.
  - destruct (onStateChange_modes_do_not_mix freeWindow jumping jumping _ pending
                eq_refl eq_refl) as [Hjump _].
    exact (proj2 (proj2 (Hjump eq_refl))).
  - intros fluid.
    destruct (onStateChange_modes_do_not_mix freeWindow fluid fluid _ pending
                eq_refl eq_refl) as [_ Hfluid].
    exact (Hfluid eq_refl).
Defined.

Section FluidDroppable.

Variable env : Collaborators.
Variable state : State.
Variable dragging : DragState.
Variable draggable : DraggableDimension.
Variable droppable : DroppableDimension.

Hypothesis Hdrag : drag state = Some dragging.
Hypothesis Hdraggable :
  dimension_draggable state !! initial_descriptor_id dragging = Some draggable.
Hypothesis Hviewport :
  isTooBigForAutoScrolling (getViewport env) (page_withMargin draggable) = false.
Hypothesis Hwindow :
  match getRequiredScroll (getViewport env) (current_page_center dragging) with
  | Some required => canScrollWindow env required = false
  | None => True
  end.
Hypothesis Hover :
  getScrollableDroppableOver env (current_page_center dragging)
                             (dimension_droppable state) = Some droppable.

Lemma fluidScroll_falls_to_droppable :
  fluidScroll env state =
  (Solve (getViewport env) (current_page_center dragging)
     :: fst (fluidScrollDroppable env state (current_page_center dragging)
                                  (page_withMargin draggable)),
   snd (fluidScrollDroppable env state (current_page_center dragging)
                             (page_withMargin draggable))).
Proof.
  unfold fluidScroll. rewrite Hdrag, Hdraggable. step. rewrite Hviewport.
  destruct (getRequiredScroll (getViewport env) (current_page_center dragging))
    as [required |]; [rewrite Hwindow |];
    destruct (fluidScrollDroppable env state _ _) as [es r]; reflexivity.
Qed.

(** X22: when the window is not scrolled -- the solver asks for nothing or
    the window refuses -- and the scrollable droppable under the centre is
    large enough for the item, the fluid path schedules for that droppable
    exactly what the solver requires for its frame, provided the droppable
    accepts it, and otherwise schedules nothing. *)
Theorem fluidScroll_droppable (closestScrollable : ClosestScrollable) :
  viewport_closestScrollable droppable = Some closestScrollable ->
  isTooBigForAutoScrolling (frame closestScrollable) (page_withMargin draggable)
    = false ->
  let center := current_page_center dragging in
  fluidScroll env state =
    (Solve (getViewport env) center :: Solve (frame closestScrollable) center ::
     match getRequiredScroll (frame closestScrollable) center with
     | Some required =>
       if canScrollDroppable env droppable required
       then [ScheduleDroppableScroll (descriptor_id droppable) required]
       else []
     | None => []
     end,
     Some tt).
Proof.
  intros Hclosest Hfits center. subst center.
  rewrite fluidScroll_falls_to_droppable.
  unfold fluidScrollDroppable. rewrite Hover, Hclosest. step. rewrite Hfits.
  destruct (getRequiredScroll (frame closestScrollable) _) as [required |];
    [destruct (canScrollDroppable env droppable required) |]; reflexivity.
Qed.

(** X23: the fluid path trusts the droppable lookup to return a droppable
    with a closest scrollable; given one without, the call ends in a
    [TypeError] after the solver has run on the viewport, and nothing is
    scheduled. *)
Theorem fluidScroll_droppable_without_scrollable :
  viewport_closestScrollable droppable = None ->
  fluidScroll env state
    = ([Solve (getViewport env) (current_page_center dragging)], None).
Proof.
  intros Hclosest.
  rewrite fluidScroll_falls_to_droppable.
  unfold fluidScrollDroppable. rewrite Hover, Hclosest. reflexivity.
Qed.

End FluidDroppable.

Lemma fluidScroll_droppable_witness :
  fluidScroll (stuckWindow None) (fluidAt (Position.mk 250 490) sampleItem)
  = ([Solve sampleViewport (Position.mk 250 490);
      Solve (Area.mk 100 400 500 100 300 400) (Position.mk 250 490);
      ScheduleDroppableScroll "list" (Position.mk (-1 * 0) 28)],
     Some tt).
Proof.
  set (state := fluidAt (Position.mk 250 490) sampleItem).
  assert (Hitem : dimension_draggable state !! "item" = Some (mkDraggable sampleItem))
    by (vm_compute; reflexivity).
  assert (Hwindow :
    match getRequiredScroll (getViewport (stuckWindow None)) (Position.mk 250 490) with
    | Some required => canScrollWindow (stuckWindow None) required = false
    | None => True
    end) by (vm_compute; exact I).
  assert (Hover : getScrollableDroppableOver (stuckWindow None) (Position.mk 250 490)
                    (dimension_droppable state) = Some sampleList)
    by (vm_compute; reflexivity).
  exact (fluidScroll_droppable (stuckWindow None) state _ (mkDraggable sampleItem)
           sampleList eq_refl Hitem eq_refl Hwindow Hover
           (mkClosestScrollable (Area.mk 100 400 500 100 300 400)) eq_refl eq_refl).
Defined.

Lemma fluidScroll_droppable_without_scrollable_witness :
  let page :=
    mkCollaborators sampleViewport (Position.mk 0 0)
      (fun _ => false) (fun _ _ => true) (fun _ => None) (fun _ _ => None)
      (fun _ _ => Some (mkDroppable "plain" None)) in
  fluidScroll page (fluidAt (Position.mk 500 790) sampleItem)
  = ([Solve sampleViewport (Position.mk 500 790)], None).
Proof.
  intros page.
  set (state := fluidAt (Position.mk 500 790) sampleItem).
  assert (Hitem : dimension_draggable state !! "item" = Some (mkDraggable sampleItem))
    by (vm_compute; reflexivity).
  assert (Hwindow :
    match getRequiredScroll (getViewport page) (Position.mk 500 790) with
    | Some required => canScrollWindow page required = false
    | None => True
    end) by (vm_compute; reflexivity).
  exact (fluidScroll_droppable_without_scrollable page state _ (mkDraggable sampleItem)
           (mkDroppable "plain" None) eq_refl Hitem eq_refl Hwindow eq_refl eq_refl).
Defined.
